(** * mockldap: the in-memory LDAP connection [mockldap.ldapobject.LDAPObject]

    A shallow embedding of [src/mockldap/ldapobject.py] and the properties of
    its operations: bind, search, compare, modify, add, rename, delete,
    password change and the one-shot queue of asynchronous search results.

    Conventions of the embedding.
    - A Python [str] and a Python [bytes] are both carried by a Rocq [string]
      (a text is represented by its UTF-8 encoding, so [encode('utf-8')] is
      the identity on the carrier); the constructor of [pyval] says which of
      the two an object is, because the code tests [isinstance(_, bytes)]
      and Python 3 never equates a [bytes] with a [str].
    - [ldap.cidict.cidict] is a map from lower-cased key to the pair of the
      key as it was last written and the value.
    - An entry is a plain [dict] from attribute name to a list of values;
      it is modelled by value, as a [gmap]. Python shares these objects:
      the model is of a directory in which no two names share an entry
      object and no two attributes a list object, as [deepcopy] of a seed
      without sharing and [_add_s] leave it, and of callers that do not
      reuse the lists they hand to [_modify_s]. The list that a search
      returns holds the directory's own entry objects; in the model it
      holds what they were when the search ran, and the statements on
      queued results say where that matters.
    - Every method is a function from the object's state to an outcome and
      the state it leaves behind; what a raised exception leaves behind is
      part of the model.
    - The functions of python-ldap, of the standard library and of the
      sibling modules [filter.py] and [recording.py] that the file calls
      are the fields of one record, [External]. *)

From Stdlib Require Import ZArith String Ascii List Bool Lia.
From stdpp Require Import base option list gmap strings fin_maps.

Local Open Scope string_scope.
Local Open Scope Z_scope.

(** ** Python strings *)

Module Py.

Definition is_upper (c : ascii) : bool :=
  let n := nat_of_ascii c in ((65 <=? n) && (n <=? 90))%nat.

Definition lower_ascii (c : ascii) : ascii :=
  if is_upper c then ascii_of_nat (nat_of_ascii c + 32) else c.

(** [s.lower()], on the letters of ASCII; the bytes of the other
    characters are kept as they are. *)
Fixpoint lower (s : string) : string :=
  match s with
  | EmptyString => EmptyString
  | String c s' => String (lower_ascii c) (lower s')
  end.

(** [s.split(sep)] for a separator of one character: the pieces between
    the occurrences of [sep], never an empty list. *)
Fixpoint split (sep : ascii) (s : string) : list string :=
  match s with
  | EmptyString => [EmptyString]
  | String c s' =>
      if Ascii.eqb c sep then EmptyString :: split sep s'
      else match split sep s' with
           | [] => [String c EmptyString]
           | w :: ws => String c w :: ws
           end
  end.

(** [sep.join(l)] *)
Fixpoint join (sep : string) (l : list string) : string :=
  match l with
  | [] => EmptyString
  | [w] => w
  | w :: ws => w +:+ sep +:+ join sep ws
  end.

(** [l[1:]] *)
Definition tail_slice {A} (l : list A) : list A := drop 1 l.

(** [l[-n:]]: the last [n] items, all of [l] when [n] is [0] (as [-0] is
    [0]) or more than [len(l)]. *)
Definition last_slice {A} (n : nat) (l : list A) : list A :=
  match n with
  | O => l
  | _ => drop (length l - n)%nat l
  end.

(** [s[:n]] and [s[n:]] on a string *)
Definition str_take (n : nat) (s : string) : string := String.substring 0 n s.
Definition str_drop (n : nat) (s : string) : string :=
  String.substring n (String.length s - n)%nat s.

(** [l.remove(x)]: drops the first occurrence, [None] (a [ValueError])
    when there is none. *)
Fixpoint remove {A} `{EqDecision A} (x : A) (l : list A) : option (list A) :=
  match l with
  | [] => None
  | y :: l' => if decide (y = x) then Some l' else cons y <$> remove x l'
  end.

(** [x in l] *)
Definition mem {A} `{EqDecision A} (x : A) (l : list A) : bool :=
  bool_decide (x ∈ l).

End Py.

(** ** Values, entries and the case-insensitive dictionary *)

(** What a value list of an entry can hold: a byte string, or an object
    that is not one (a text). *)
Inductive pyval : Type :=
  | Bytes (b : string)
  | Text (s : string).

#[global] Instance pyval_eq_dec : EqDecision pyval.
Proof. solve_decision. Defined.

Definition is_bytes (v : pyval) : bool :=
  match v with Bytes _ => true | Text _ => false end.

(** [{attr: [values]}] *)
Abbreviation Entry := (gmap string (list pyval)).

(** [ldap.cidict.cidict]: [__setitem__] files the value under [key.lower()]
    and remembers [key]; lookups lower the key first; [keys()] gives the
    remembered keys. *)
Module cidict.

Abbreviation t V := (gmap string (string * V)).

Definition getitem {V} (key : string) (d : t V) : option V :=
  snd <$> d !! Py.lower key.

Definition contains {V} (key : string) (d : t V) : bool :=
  bool_decide (is_Some (d !! Py.lower key)).

Definition setitem {V} (key : string) (v : V) (d : t V) : t V :=
  <[Py.lower key := (key, v)]> d.

(** [del d[key]]; [None] is Python's [KeyError]. *)
Definition delitem {V} (key : string) (d : t V) : option (t V) :=
  match d !! Py.lower key with
  | Some _ => Some (delete (Py.lower key) d)
  | None => None
  end.

Definition keys {V} (d : t V) : list string :=
  (fun kv => fst (snd kv)) <$> map_to_list d.

End cidict.

(** ** Exceptions and outcomes *)

Inductive exn : Type :=
  | INVALID_DN_SYNTAX
  | NO_SUCH_OBJECT
  | ALREADY_EXISTS
  | PROTOCOL_ERROR
  | INVALID_CREDENTIALS (msg : string)
  | DECODING_ERROR
  | SeedRequired
  | TypeError
  | ValueError
  | KeyError
  | IndexError
  | AttributeError
  | UnicodeDecodeError
  | BinasciiError.

#[global] Instance exn_eq_dec : EqDecision exn.
Proof. solve_decision. Defined.

Inductive result (A : Type) : Type :=
  | Ok (a : A)
  | Raise (e : exn).
Arguments Ok {A} a.
Arguments Raise {A} e.

Definition rbind {A B} (r : result A) (k : A -> result B) : result B :=
  match r with
  | Ok a => k a
  | Raise e => Raise e
  end.

Declare Scope py_scope.
Delimit Scope py_scope with py.
Notation "'let!' x ':=' r 'in' k" := (rbind r (fun x => k))
  (at level 10, x pattern, r at level 100, k at level 200) : py_scope.
Local Open Scope py_scope.

Definition of_option {A} (e : exn) (o : option A) : result A :=
  match o with
  | Some a => Ok a
  | None => Raise e
  end.

(** A search result: [[(dn, {attr: [values]})]] *)
Abbreviation SearchResult := (list (string * Entry)).

(** What [parse] of [filter.py] can do with a filter string. *)
Inductive parsed (F : Type) : Type :=
  | Parsed (f : F)
  | UnsupportedOp
  | ParseFailure (e : exn).
Arguments Parsed {F} f.
Arguments UnsupportedOp {F}.
Arguments ParseFailure {F} e.

(** The callees that are not part of [ldapobject.py]. *)
Record External : Type := {
  (** [ldap.dn.str2dn(dn)] returns rather than raising [DECODING_ERROR] *)
  str2dn_ok : string -> bool;
  (** [ldap.dn.explode_dn(dn)], [None] for [DECODING_ERROR] *)
  explode_dn : string -> option (list string);
  (** the bytes are well-formed UTF-8, so that [decode('utf-8')] returns *)
  utf8_ok : string -> bool;
  (** [crypt.crypt], or [None] when the import failed *)
  crypt : option (string -> string -> string);
  (** [base64.b64decode], [None] for [binascii.Error] *)
  b64decode : string -> option string;
  (** the SHA-1 digest of a byte string *)
  sha1 : string -> string;
  (** [filter.py]: the parsed filters, [parse], and [matches(dn, attrs)] *)
  filter_expr : Type;
  parse : string -> parsed filter_expr;
  matches : filter_expr -> string -> Entry -> result bool
}.

(** ** The object's state *)

Record LDAPObject : Type := mkLDAPObject {
  directory : cidict.t Entry;
  async_results : list (option SearchResult);
  options : gmap Z Z;
  tls_enabled : bool;
  bound_as : option string;
  (** [len(self.methods_called())], kept by the recording layer *)
  methods_called_len : nat
}.

Definition set_directory (d : cidict.t Entry) (self : LDAPObject) : LDAPObject :=
  mkLDAPObject d (async_results self) (options self) (tls_enabled self)
    (bound_as self) (methods_called_len self).

Definition set_async_results (r : list (option SearchResult)) (self : LDAPObject)
  : LDAPObject :=
  mkLDAPObject (directory self) r (options self) (tls_enabled self)
    (bound_as self) (methods_called_len self).

Definition set_options (o : gmap Z Z) (self : LDAPObject) : LDAPObject :=
  mkLDAPObject (directory self) (async_results self) o (tls_enabled self)
    (bound_as self) (methods_called_len self).

Definition set_tls_enabled (b : bool) (self : LDAPObject) : LDAPObject :=
  mkLDAPObject (directory self) (async_results self) (options self) b
    (bound_as self) (methods_called_len self).

Definition set_bound_as (w : option string) (self : LDAPObject) : LDAPObject :=
  mkLDAPObject (directory self) (async_results self) (options self)
    (tls_enabled self) w (methods_called_len self).

Definition set_methods_called_len (n : nat) (self : LDAPObject) : LDAPObject :=
  mkLDAPObject (directory self) (async_results self) (options self)
    (tls_enabled self) (bound_as self) n.

(** [LDAPObject(directory)] for a seed that is a [cidict] already. *)
Definition init (seed : cidict.t Entry) : LDAPObject :=
  mkLDAPObject seed [] ∅ false None 0.

(** Constants of python-ldap. *)
Definition SCOPE_BASE : Z := 0.
Definition SCOPE_ONELEVEL : Z := 1.
Definition SCOPE_SUBTREE : Z := 2.
Definition MOD_ADD : Z := 0.
Definition MOD_DELETE : Z := 1.
Definition MOD_REPLACE : Z := 2.
Definition RES_SEARCH_RESULT : Z := 101.

(** ** The password verifier *)

Definition newline : ascii := ascii_of_nat 10.

(** The first group of [PASSWORD_RE], read after the opening brace: the
    characters up to the first closing brace, none of them a newline; with
    it, what follows that brace. *)
Fixpoint re_scheme (s : string) : option (string * string) :=
  match s with
  | EmptyString => None
  | String c s' =>
      if Ascii.eqb c "}"%char then Some (EmptyString, s')
      else if Ascii.eqb c newline then None
      else match re_scheme s' with
           | Some (scheme, rest) => Some (String c scheme, rest)
           | None => None
           end
  end.

(** The second group, any characters but a newline: up to the first
    newline. *)
Fixpoint re_line (s : string) : string :=
  match s with
  | EmptyString => EmptyString
  | String c s' =>
      if Ascii.eqb c newline then EmptyString else String c (re_line s')
  end.

(** [PASSWORD_RE.match(value)], with [match.groups()] when it matches. *)
Definition PASSWORD_RE_match (value : string) : option (string * string) :=
  match value with
  | String c s' =>
      if Ascii.eqb c "{"%char then
        match re_scheme s' with
        | Some (scheme, rest) => Some (scheme, re_line rest)
        | None => None
        end
      else None
  | EmptyString => None
  end.

(** The third component of a modification: [None], a list, or a bare value. *)
Inductive modvalue : Type :=
  | MNone
  | MList (l : list pyval)
  | MScalar (v : pyval).

Section Operations.

Variable X : External.

Definition _check_valid_dn (dn : string) : result unit :=
  if str2dn_ok X dn then Ok tt else Raise INVALID_DN_SYNTAX.

Definition ssha_matches (password raw : string) : result bool :=
  let! decoded := of_option BinasciiError (b64decode X raw) in
  Ok (bool_decide (sha1 X (password +:+ Py.str_drop 20 decoded)
                   = Py.str_take 20 decoded)).

(** The first test, [crypt is not None and scheme == 'CRYPT'], is the
    match on [crypt] when the scheme is [CRYPT]. *)
Definition _compare_password (password value : string) : result bool :=
  match PASSWORD_RE_match value with
  | Some (scheme, raw) =>
      match (if bool_decide (scheme = "CRYPT") then crypt X else None) with
      | Some crypt_fn =>
          Ok (bool_decide (crypt_fn password (Py.str_take 4 raw) = raw))
      | None =>
          if bool_decide (scheme = "SSHA") then ssha_matches password raw
          else Ok false
      end
  | None => Ok (bool_decide (value = password))
  end.

(** [x.decode('utf-8')]: a text has no such method in Python 3. *)
Definition decode (v : pyval) : result string :=
  match v with
  | Bytes b => if utf8_ok X b then Ok b else Raise UnicodeDecodeError
  | Text _ => Raise AttributeError
  end.

(** [any(self._compare_password(value, candidate) for candidate in values)]
    over the lazily decoded values: it stops at the first that verifies. *)
Fixpoint any_password (value : string) (values : list pyval) : result bool :=
  match values with
  | [] => Ok false
  | x :: rest =>
      let! candidate := decode x in
      let! m := _compare_password value candidate in
      if m then Ok true else any_password value rest
  end.

(** [value in values] over the lazily decoded values. *)
Fixpoint in_decoded (value : string) (values : list pyval) : result bool :=
  match values with
  | [] => Ok false
  | x :: rest =>
      let! candidate := decode x in
      if bool_decide (candidate = value) then Ok true
      else in_decoded value rest
  end.

Definition _compare_s (self : LDAPObject) (dn attr value : string) : result Z :=
  let! _ := _check_valid_dn dn in
  let! entry := of_option NO_SUCH_OBJECT (cidict.getitem dn (directory self)) in
  let values := default [] (entry !! attr) in
  if bool_decide (attr = "userPassword") then
    let! r := any_password value values in
    Ok (if r then 1 else 0)
  else
    let! r := in_decoded value values in
    Ok (if r then 1 else 0).

Definition compare_s := _compare_s.

(** [simple_bind_s]: only [NO_SUCH_OBJECT] is caught around the compare. *)
Definition simple_bind_s (who cred : string) (self : LDAPObject)
  : result (Z * list string) * LDAPObject :=
  let attempt : result bool :=
    if bool_decide (who = "") && bool_decide (cred = "") then Ok true
    else match _compare_s self who "userPassword" cred with
         | Ok r => Ok (negb (r =? 0))
         | Raise NO_SUCH_OBJECT => Ok false
         | Raise e => Raise e
         end in
  match attempt with
  | Ok true => (Ok (97, []), set_bound_as (Some who) self)
  | Ok false => (Raise (INVALID_CREDENTIALS (who +:+ ":" +:+ cred)), self)
  | Raise e => (Raise e, self)
  end.

(** *** Search *)

Fixpoint mapM {A B} (f : A -> result B) (l : list A) : result (list B) :=
  match l with
  | [] => Ok []
  | a :: l' =>
      let! b := f a in
      let! bs := mapM f l' in
      Ok (b :: bs)
  end.

(** The entries of scope: [dn_parts] restricted by the scope's test, a
    [ValueError] for a scope that is none of the three. *)
Definition scope_test (scope : Z) (base_parts : list string)
  : result (list string -> bool) :=
  if scope =? SCOPE_BASE then
    Ok (fun parts => bool_decide (parts = base_parts))
  else if scope =? SCOPE_ONELEVEL then
    Ok (fun parts => bool_decide (Py.tail_slice parts = base_parts))
  else if scope =? SCOPE_SUBTREE then
    Ok (fun parts =>
          bool_decide (Py.last_slice (length base_parts) parts = base_parts))
  else Raise ValueError.

Definition parse_filter (filterstr : string) : result (filter_expr X) :=
  match parse X filterstr with
  | Parsed f => Ok f
  | UnsupportedOp => Raise SeedRequired
  | ParseFailure e => Raise e
  end.

(** [(dn, self.directory[dn]) for dn in dns if filter_expr.matches(...)] *)
Fixpoint matching (self : LDAPObject) (f : filter_expr X) (dns : list string)
  : result SearchResult :=
  match dns with
  | [] => Ok []
  | dn :: rest =>
      let! attrs := of_option KeyError (cidict.getitem dn (directory self)) in
      let! m := matches X f dn attrs in
      let! more := matching self f rest in
      Ok (if m then (dn, attrs) :: more else more)
  end.

Definition project (attrlist : option (list string)) (attrs : Entry) : Entry :=
  match attrlist with
  | Some l => filter (fun kv => fst kv ∈ l) attrs
  | None => attrs
  end.

Definition strip (attrsonly : bool) (attrs : Entry) : Entry :=
  if attrsonly then (fun _ => []) <$> attrs else attrs.

Definition _search_s (self : LDAPObject) (base : string) (scope : Z)
    (filterstr : string) (attrlist : option (list string)) (attrsonly : bool)
  : result SearchResult :=
  let! _ := _check_valid_dn base in
  if negb (cidict.contains base (directory self)) then Raise NO_SUCH_OBJECT
  else
    let! base_parts := of_option DECODING_ERROR (explode_dn X (Py.lower base)) in
    let! dn_parts :=
      mapM (fun dn =>
              let! parts := of_option DECODING_ERROR (explode_dn X (Py.lower dn)) in
              Ok (dn, parts))
           (cidict.keys (directory self)) in
    let! test := scope_test scope base_parts in
    let dns := fst <$> filter (fun dp => test (snd dp) = true) dn_parts in
    let! f := parse_filter filterstr in
    let! results := matching self f dns in
    Ok ((fun r => (fst r, strip attrsonly (project attrlist (snd r)))) <$> results).

Definition search_s := _search_s.

(** *** The queue of asynchronous results *)

Definition _add_async_result (value : SearchResult) (self : LDAPObject)
  : Z * LDAPObject :=
  let q := (async_results self ++ [Some value])%list in
  (Z.of_nat (length q) - 1, set_async_results q self).

(** [None] is Python's [None]. *)
Definition _pop_async_result (msgid : Z) (self : LDAPObject)
  : option SearchResult * LDAPObject :=
  if (0 <=? msgid) && (msgid <? Z.of_nat (length (async_results self))) then
    (mjoin (async_results self !! Z.to_nat msgid),
     set_async_results (<[Z.to_nat msgid := None]> (async_results self)) self)
  else (None, self).

Definition search (base : string) (scope : Z) (filterstr : string)
    (attrlist : option (list string)) (attrsonly : bool) (self : LDAPObject)
  : result Z * LDAPObject :=
  match _search_s self base scope filterstr attrlist attrsonly with
  | Ok value =>
      let '(msgid, self') := _add_async_result value self in (Ok msgid, self')
  | Raise e => (Raise e, self)
  end.

Definition result_ (msgid : Z) (self : LDAPObject)
  : (Z * option SearchResult) * LDAPObject :=
  let '(value, self') := _pop_async_result msgid self in
  ((RES_SEARCH_RESULT, value), self').

(** *** Modify *)

Definition normalize (value : modvalue) : list pyval :=
  match value with
  | MNone => []
  | MList l => l
  | MScalar v => [v]
  end.

Definition check_bytes (value : list pyval) : result unit :=
  if forallb is_bytes value then Ok tt else Raise TypeError.

(** [if subvalue not in entry[key]: entry[key].append(subvalue)] *)
Definition append_new (l : list pyval) (subvalue : pyval) : list pyval :=
  if Py.mem subvalue l then l else (l ++ [subvalue])%list.

(** The body of the loop of [_modify_s] after the entry is fetched. Every
    [raise] in it comes before the entry is touched. *)
Definition apply_mod (op : Z) (key : string) (value : modvalue) (entry : Entry)
  : result Entry :=
  let value := normalize value in
  if op =? MOD_ADD then
    if bool_decide (value = []) then Raise PROTOCOL_ERROR
    else
      let! _ := check_bytes value in
      match entry !! key with
      | None => Ok (<[key := value]> entry)
      | Some old => Ok (<[key := foldl append_new old value]> entry)
      end
  else if op =? MOD_DELETE then
    match entry !! key with
    | None => Ok entry
    | Some old =>
        if bool_decide (value = []) then Ok (delete key entry)
        else
          let! _ := check_bytes value in
          let kept := filter (fun v => v ∉ value) old in
          if bool_decide (kept = []) then Ok (delete key entry)
          else Ok (<[key := kept]> entry)
    end
  else if op =? MOD_REPLACE then
    if bool_decide (value = []) then Ok (delete key entry)
    else
      let! _ := check_bytes value in
      Ok (<[key := value]> entry)
  else Ok entry.

(** The entry object filed under [dn] becomes [entry]; the key stays as
    it was written. *)
Definition mutate_entry (dn : string) (entry : Entry) (self : LDAPObject)
  : LDAPObject :=
  set_directory
    (alter (fun kv => (fst kv, entry)) (Py.lower dn) (directory self)) self.

Fixpoint modify_loop (dn : string) (mod_attrs : list (Z * string * modvalue))
    (self : LDAPObject) : result unit * LDAPObject :=
  match mod_attrs with
  | [] => (Ok tt, self)
  | (op, key, value) :: rest =>
      match cidict.getitem dn (directory self) with
      | None => (Raise NO_SUCH_OBJECT, self)
      | Some entry =>
          match apply_mod op key value entry with
          | Ok entry' => modify_loop dn rest (mutate_entry dn entry' self)
          | Raise e => (Raise e, self)
          end
      end
  end.

Definition _modify_s (dn : string) (mod_attrs : list (Z * string * modvalue))
    (self : LDAPObject) : result (Z * list string) * LDAPObject :=
  match _check_valid_dn dn with
  | Raise e => (Raise e, self)
  | Ok _ =>
      match modify_loop dn mod_attrs self with
      | (Ok _, self') => (Ok (103, []), self')
      | (Raise e, self') => (Raise e, self')
      end
  end.

(** *** Add *)

Fixpoint build_entry (record : list (string * list pyval)) (entry : Entry)
  : result Entry :=
  match record with
  | [] => Ok entry
  | (attr, values) :: rest =>
      if forallb is_bytes values then build_entry rest (<[attr := values]> entry)
      else Raise TypeError
  end.

Definition _add_s (dn : string) (record : list (string * list pyval))
    (self : LDAPObject)
  : result (Z * list string * nat * list string) * LDAPObject :=
  match (let! _ := _check_valid_dn dn in build_entry record ∅) with
  | Raise e => (Raise e, self)
  | Ok entry =>
      match cidict.getitem dn (directory self) with
      | Some _ => (Raise ALREADY_EXISTS, self)
      | None =>
          (Ok (105, [], methods_called_len self, []),
           set_directory (cidict.setitem (Py.lower dn) entry (directory self)) self)
      end
  end.

(** *** Rename *)

(** [a, b = l]: a [ValueError] unless [l] has two items. *)
Definition unpack2 (l : list string) : result (string * string) :=
  match l with
  | [a; b] => Ok (a, b)
  | _ => Raise ValueError
  end.

(** [if newsuperior:] *)
Definition truthy (o : option string) : bool :=
  match o with
  | Some s => negb (bool_decide (s = ""))
  | None => false
  end.

(** The first statement on the entry: drop [oldvalue], or the attribute. *)
Definition drop_old (oldattr newattr : string) (oldvalue : pyval) (entry : Entry)
  : result Entry :=
  let remove_old :=
    let! old := of_option KeyError (entry !! oldattr) in
    let! old' := of_option ValueError (Py.remove oldvalue old) in
    Ok (<[oldattr := old']> entry) in
  if bool_decide (oldattr = newattr) then remove_old
  else
    let! old := of_option KeyError (entry !! oldattr) in
    if (1 <? length old)%nat then remove_old
    else Ok (delete oldattr entry).

(** The second: the new value joins [newattr], once. *)
Definition put_new (newattr : string) (newvalue : pyval) (entry : Entry) : Entry :=
  match entry !! newattr with
  | Some l =>
      if Py.mem newvalue l then entry else <[newattr := (l ++ [newvalue])%list]> entry
  | None => <[newattr := [newvalue]]> entry
  end.

Definition head_or_empty (l : list string) : string := default "" (head l).

Definition _rename_s (dn newrdn : string) (newsuperior : option string)
    (self : LDAPObject) : result (Z * list string) * LDAPObject :=
  let checks :=
    let! _ := _check_valid_dn dn in
    let! _ := _check_valid_dn newrdn in
    let! _ := (if truthy newsuperior
               then _check_valid_dn (default "" newsuperior) else Ok tt) in
    let! entry := of_option NO_SUCH_OBJECT (cidict.getitem dn (directory self)) in
    let superior :=
      if truthy newsuperior then default "" newsuperior
      else Py.join "," (Py.tail_slice (Py.split "," dn)) in
    let newfulldn := newrdn +:+ "," +:+ superior in
    if cidict.contains newfulldn (directory self) then Raise ALREADY_EXISTS
    else
      let! (oldattr, oldvalue) :=
        unpack2 (Py.split "=" (head_or_empty (Py.split "," dn))) in
      let! (newattr, newvalue) := unpack2 (Py.split "=" newrdn) in
      let! entry1 := drop_old oldattr newattr (Bytes oldvalue) entry in
      Ok (newfulldn, put_new newattr (Bytes newvalue) entry1) in
  match checks with
  | Raise e => (Raise e, self)
  | Ok (newfulldn, entry') =>
      (Ok (109, []),
       set_directory
         (delete (Py.lower dn) (cidict.setitem newfulldn entry' (directory self)))
         self)
  end.

(** *** Delete *)

Definition _delete_s (dn : string) (self : LDAPObject)
  : result (Z * list string) * LDAPObject :=
  match _check_valid_dn dn with
  | Raise e => (Raise e, self)
  | Ok _ =>
      match cidict.delitem dn (directory self) with
      | Some d => (Ok (107, []), set_directory d self)
      | None => (Raise NO_SUCH_OBJECT, self)
      end
  end.

(** *** Password change *)

Definition set_password (user : string) (newpw : pyval) (entry : Entry)
    (self : LDAPObject) : LDAPObject :=
  mutate_entry user (<["userPassword" := [newpw]]> entry) self.

Definition _passwd_s (user : string) (oldpw : option pyval) (newpw : pyval)
    (self : LDAPObject) : result unit * LDAPObject :=
  match _check_valid_dn user with
  | Raise e => (Raise e, self)
  | Ok _ =>
      match cidict.getitem user (directory self) with
      | None => (Raise NO_SUCH_OBJECT, self)
      | Some entry =>
          match oldpw with
          | Some old =>
              match entry !! "userPassword" with
              | None => (Raise KeyError, self)
              | Some [] => (Raise IndexError, self)
              | Some (first :: _) =>
                  if bool_decide (first = old)
                  then (Ok tt, set_password user newpw entry self)
                  else (Ok tt, self)
              end
          | None => (Ok tt, set_password user newpw entry self)
          end
      end
  end.

(** *** The remaining methods *)

Definition start_tls_s (self : LDAPObject) : LDAPObject :=
  set_tls_enabled true self.

Definition unbind (self : LDAPObject) : LDAPObject := set_bound_as None self.
Definition unbind_s (self : LDAPObject) : LDAPObject := set_bound_as None self.

(** ["dn:" + self.bound_as]: a [TypeError] when nothing is bound. *)
Definition whoami_s (self : LDAPObject) : result string :=
  match bound_as self with
  | Some who => Ok ("dn:" +:+ who)
  | None => Raise TypeError
  end.

Definition get_option (option : Z) (self : LDAPObject) : result Z :=
  of_option KeyError (options self !! option).

Definition set_option (option invalue : Z) (self : LDAPObject) : LDAPObject :=
  set_options (<[option := invalue]> (options self)) self.

(** *** Calls from outside *)

(** Modelled from the spec: [recording.py] is not among the sources; of
    its decorator [recorded] the spec keeps that each operation call
    appends its name and arguments to a log the object owns, of which
    [_add_s] reads the length. Canned return values are left out. *)
Definition recorded (self : LDAPObject) : LDAPObject :=
  set_methods_called_len (S (methods_called_len self)) self.

Inductive call : Type :=
  | Initialize
  | Get_option (option : Z)
  | Set_option (option invalue : Z)
  | Sasl_external_bind_s
  | Simple_bind_s (who cred : string)
  | Search (base : string) (scope : Z) (filterstr : string)
      (attrlist : option (list string)) (attrsonly : bool)
  | Result (msgid : Z)
  | Search_s (base : string) (scope : Z) (filterstr : string)
      (attrlist : option (list string)) (attrsonly : bool)
  | Start_tls_s
  | Compare_s (dn attr value : string)
  | Modify_s (dn : string) (mod_attrs : list (Z * string * modvalue))
  | Add_s (dn : string) (record : list (string * list pyval))
  | Rename_s (dn newrdn : string) (newsuperior : option string)
  | Delete_s (dn : string)
  | Unbind
  | Unbind_s
  | Whoami_s
  | Passwd_s (user : string) (oldpw : option pyval) (newpw : pyval).

(** The state a call leaves behind, whether it returns or raises. *)
Definition run (c : call) (self : LDAPObject) : LDAPObject :=
  let self := recorded self in
  match c with
  | Initialize | Sasl_external_bind_s | Whoami_s => self
  | Get_option _ | Search_s _ _ _ _ _ | Compare_s _ _ _ => self
  | Set_option option invalue => set_option option invalue self
  | Simple_bind_s who cred => snd (simple_bind_s who cred self)
  | Search base scope filterstr attrlist attrsonly =>
      snd (search base scope filterstr attrlist attrsonly self)
  | Result msgid => snd (result_ msgid self)
  | Start_tls_s => start_tls_s self
  | Modify_s dn mod_attrs => snd (_modify_s dn mod_attrs self)
  | Add_s dn record => snd (_add_s dn record self)
  | Rename_s dn newrdn newsuperior => snd (_rename_s dn newrdn newsuperior self)
  | Delete_s dn => snd (_delete_s dn self)
  | Unbind => unbind self
  | Unbind_s => unbind_s self
  | Passwd_s user oldpw newpw => snd (_passwd_s user oldpw newpw self)
  end.

Definition run_all (calls : list call) (self : LDAPObject) : LDAPObject :=
  foldl (fun s c => run c s) self calls.

End Operations.

(** ** A stand-in for the external callees

    Enough of python-ldap and of the filter module to run the operations on
    concrete directories: a distinguished name is a comma-separated list of
    [attr=value] with a non-empty [attr], or the empty string. *)
Module Demo.

Definition rdn_ok (rdn : string) : bool :=
  match Py.split "=" rdn with
  | [attr; _] => negb (bool_decide (attr = ""))
  | _ => false
  end.

Definition dn_ok (dn : string) : bool :=
  bool_decide (dn = "") || forallb rdn_ok (Py.split "," dn).

Definition explode (dn : string) : option (list string) :=
  if bool_decide (dn = "") then Some []
  else if forallb rdn_ok (Py.split "," dn) then Some (Py.split "," dn)
  else None.

Definition ascii_only (b : string) : bool :=
  forallb (fun c => (nat_of_ascii c <? 128)%nat) (list_ascii_of_string b).

(** The one filter it reads is the default, which every entry with an
    [objectClass] matches. *)
Definition parse_default (filterstr : string) : parsed unit :=
  if bool_decide (filterstr = "(objectClass=*)") then Parsed tt
  else UnsupportedOp.

Definition has_objectClass (_ : unit) (_ : string) (attrs : Entry) : result bool :=
  Ok (bool_decide (is_Some (attrs !! "objectClass"))).

Definition X : External :=
  {| str2dn_ok := dn_ok;
     explode_dn := explode;
     utf8_ok := ascii_only;
     crypt := None;
     b64decode := fun _ => None;
     sha1 := fun b => b;
     filter_expr := unit;
     parse := parse_default;
     matches := has_objectClass |}.

Definition alice_dn : string := "cn=alice,dc=example,dc=com".

Definition alice : Entry :=
  {[ "cn" := [Bytes "alice"; Bytes "al"];
     "objectClass" := [Bytes "person"];
     "userPassword" := [Bytes "alicepw"] ]}.

Definition example_dir : cidict.t Entry :=
  {[ "dc=example,dc=com" :=
       ("dc=example,dc=com", {[ "objectClass" := [Bytes "domain"] ]});
     alice_dn := (alice_dn, alice) ]}.

Definition conn : LDAPObject := init example_dir.

(** The connection after a subtree search from the root has been issued,
    and calls that do not fetch its ticket, which is 0. *)
Definition issued : LDAPObject :=
  snd (search X "dc=example,dc=com" 2 "(objectClass=*)" None false conn).

(** Calls that take values away: both values of [cn], then a rename that
    swaps the only value of [uid]. *)
Definition edits : list call :=
  [Modify_s alice_dn [(MOD_DELETE, "cn", MList [Bytes "al"; Bytes "alice"]);
                      (MOD_ADD, "uid", MScalar (Bytes "alice"))];
   Add_s "uid=bob,dc=example,dc=com" [("uid", [Bytes "bob"])];
   Rename_s "uid=bob,dc=example,dc=com" "uid=robert" None;
   Passwd_s alice_dn None (Bytes "changed");
   Delete_s "dc=example,dc=com"].

Definition before : list call :=
  [Delete_s alice_dn; Result 1; Result (-1);
   Search alice_dn 0 "(objectClass=*)" None false].

End Demo.

(** ** Notions used in the statements *)

(** Every value list of the record holds byte strings only. *)
Definition well_typed (record : list (string * list pyval)) : Prop :=
  Forall (fun av => forallb is_bytes (snd av) = true) record.


(** The scheme tag a stored value opens with, if it opens with one. *)
Definition scheme_tag (value : string) : option string :=
  fst <$> PASSWORD_RE_match value.

(** The tag is one of the two the verifier knows. *)
Definition recognized_tag (value : string) : bool :=
  bool_decide (scheme_tag value = Some "CRYPT")
  || bool_decide (scheme_tag value = Some "SSHA").




(** The call changes no entry object in place. ([_add_s] files a new
    object and [_delete_s] only drops the directory's reference.) *)
Definition leaves_entries_alone (c : call) : Prop :=
  match c with
  | Modify_s _ _ | Rename_s _ _ _ | Passwd_s _ _ _ => False
  | _ => True
  end.

(** ** Further notions used in the statements *)

(** Every value is a byte string that [decode('utf-8')] accepts. *)
Definition decodable (X : External) (values : list pyval) : Prop :=
  Forall (fun v => match v with
                   | Bytes b => utf8_ok X b = true
                   | Text _ => False
                   end) values.

(** No value opens with a scheme tag. *)
Definition untagged (values : list pyval) : Prop :=
  Forall (fun v => match v with
                   | Bytes b => scheme_tag b = None
                   | Text _ => True
                   end) values.

(** The character does not occur in the string. *)
Fixpoint char_free (c : ascii) (s : string) : bool :=
  match s with
  | EmptyString => true
  | String c' s' => negb (Ascii.eqb c' c) && char_free c s'
  end.

(** A second stand-in, with a digest of twenty bytes (the first twenty of
    the input followed by dots) and a [b64decode] that accepts the strings
    free of [!] and returns them as they are. *)
Module Hashed.

Definition digest (b : string) : string :=
  Py.str_take 20 (b +:+ "....................").

Definition unbase64 (raw : string) : option string :=
  if char_free "!" raw then Some raw else None.

Definition X : External :=
  {| str2dn_ok := Demo.dn_ok;
     explode_dn := Demo.explode;
     utf8_ok := Demo.ascii_only;
     crypt := None;
     b64decode := unbase64;
     sha1 := digest;
     filter_expr := unit;
     parse := Demo.parse_default;
     matches := Demo.has_objectClass |}.

End Hashed.

(** The name under which [_rename_s] files the entry: the new relative
    name, a comma, and the new superior if one is given and not empty, else
    what follows the first comma of the old name. *)
Definition rename_target (dn newrdn : string) (newsuperior : option string) : string :=
  newrdn +:+ "," +:+
  (if truthy newsuperior then default "" newsuperior
   else Py.join "," (Py.tail_slice (Py.split "," dn))).

(** ** Properties *)

(** *** Strings and the case-insensitive dictionary *)



Lemma contains_getitem {V} (key : string) (d : cidict.t V) :
  cidict.contains key d = bool_decide (is_Some (cidict.getitem key d)).
Proof.
  unfold cidict.contains, cidict.getitem.
  apply bool_decide_ext. now rewrite fmap_is_Some.
Qed.

Lemma contains_false_iff {V} (key : string) (d : cidict.t V) :
  cidict.contains key d = false <-> cidict.getitem key d = None.
Proof.
  rewrite contains_getitem, bool_decide_eq_false, <- eq_None_not_Some.
  reflexivity.
Qed.


Lemma getitem_setitem_case {V} (k1 k2 : string) (v : V) (d : cidict.t V) :
  Py.lower k1 = Py.lower k2 ->
  cidict.getitem k1 (cidict.setitem k2 v d) = Some v.
Proof.
  unfold cidict.getitem, cidict.setitem. intros ->.
  now rewrite lookup_insert_eq.
Qed.

Lemma getitem_setitem_other {V} (k1 k2 : string) (v : V) (d : cidict.t V) :
  Py.lower k1 <> Py.lower k2 ->
  cidict.getitem k1 (cidict.setitem k2 v d) = cidict.getitem k1 d.
Proof.
  unfold cidict.getitem, cidict.setitem. intros Hne.
  rewrite lookup_insert_ne; [reflexivity | congruence].
Qed.

(** *** Search on a base that is not in the directory *)

(** C1. For a base that [str2dn] accepts and that the directory does not
    hold, [_search_s] raises [NO_SUCH_OBJECT], whatever the scope, the
    filter string, the attribute list and the flag, and whatever the filter
    module would do with the filter string: the filter is not reached. The
    asynchronous [search] raises the same and queues nothing. *)
Theorem search_absent_base (X : External) (self : LDAPObject) (base : string)
    (scope : Z) (filterstr : string) (attrlist : option (list string))
    (attrsonly : bool) :
  str2dn_ok X base = true ->
  cidict.getitem base (directory self) = None ->
  _search_s X self base scope filterstr attrlist attrsonly = Raise NO_SUCH_OBJECT
  /\ search_s X self base scope filterstr attrlist attrsonly = Raise NO_SUCH_OBJECT
  /\ search X base scope filterstr attrlist attrsonly self
     = (Raise NO_SUCH_OBJECT, self).
Proof.
  intros Hdn Habs.
  assert (Hs : _search_s X self base scope filterstr attrlist attrsonly
               = Raise NO_SUCH_OBJECT).
  { unfold _search_s, _check_valid_dn. rewrite Hdn. simpl.
    apply contains_false_iff in Habs. now rewrite Habs. }
  repeat split; [exact Hs | exact Hs |].
  unfold search. now rewrite Hs.
Qed.

(** An unsupported filter, an unknown scope: the base is looked up first. *)
Lemma search_absent_base_witness :
  parse Demo.X "(cn~=x)" = UnsupportedOp
  /\ _search_s Demo.X Demo.conn "cn=bob,dc=example,dc=com" 7 "(cn~=x)" None false
     = Raise NO_SUCH_OBJECT.
Proof.
  split; [reflexivity|].
  apply (search_absent_base Demo.X Demo.conn "cn=bob,dc=example,dc=com" 7
           "(cn~=x)" None false); reflexivity.
Defined.

(** *** Modify on a name that is not in the directory *)

Lemma modify_loop_absent (dn : string) (mod_attrs : list (Z * string * modvalue))
    (self : LDAPObject) :
  cidict.getitem dn (directory self) = None ->
  mod_attrs <> [] ->
  modify_loop dn mod_attrs self = (Raise NO_SUCH_OBJECT, self).
Proof.
  intros Habs Hne. destruct mod_attrs as [|[[op key] value] rest]; [congruence|].
  simpl. now rewrite Habs.
Qed.

(** C5. What [_modify_s] does on a name that [str2dn] accepts and the
    directory does not hold: with at least one modification it raises
    [NO_SUCH_OBJECT]; with none it returns [(103, [])], because the entry is
    only fetched inside the loop over the modifications. *)
Theorem modify_absent_dn (X : External) (dn : string)
    (mod_attrs : list (Z * string * modvalue)) (self : LDAPObject) :
  str2dn_ok X dn = true ->
  cidict.getitem dn (directory self) = None ->
  _modify_s X dn mod_attrs self
  = (match mod_attrs with
     | [] => Ok (103, [])
     | _ :: _ => Raise NO_SUCH_OBJECT
     end, self).
Proof.
  intros Hdn Habs. unfold _modify_s, _check_valid_dn. rewrite Hdn.
  destruct mod_attrs as [|m rest]; [reflexivity|].
  now rewrite (modify_loop_absent dn (m :: rest) self Habs).
Qed.

Lemma modify_absent_dn_witness :
  cidict.getitem "cn=bob,dc=example,dc=com" (directory Demo.conn) = None
  /\ fst (_modify_s Demo.X "cn=bob,dc=example,dc=com" [] Demo.conn) = Ok (103, []).
Proof.
  split; [reflexivity|].
  rewrite (modify_absent_dn Demo.X "cn=bob,dc=example,dc=com" [] Demo.conn);
    reflexivity.
Defined.

(** *** Add *)




(** *** The password verifier *)

(** A stored value with a tag that is neither [{CRYPT}] nor [{SSHA}] is
    not compared literally: it verifies no password, not even itself. *)
Lemma compare_password_unknown_tag_not_literal :
  ~ (forall (X : External) (password value : string),
        recognized_tag value = false ->
        _compare_password X password value = Ok (bool_decide (value = password))).
Proof.
  intros H. specialize (H Demo.X "{MD5}abc" "{MD5}abc" eq_refl).
  vm_compute in H. discriminate H.
Qed.

(** C8, amended. A stored value that opens with no tag at all is compared
    with the password literally. A stored value whose tag is neither
    [CRYPT] nor [SSHA] verifies no password. *)
Theorem compare_password_untagged (X : External) (password value : string) :
  (scheme_tag value = None ->
   _compare_password X password value = Ok (bool_decide (value = password)))
  /\ (forall scheme : string,
         scheme_tag value = Some scheme ->
         scheme <> "CRYPT" -> scheme <> "SSHA" ->
         _compare_password X password value = Ok false).
Proof.
  unfold scheme_tag, _compare_password.
  destruct (PASSWORD_RE_match value) as [[scheme raw]|]; simpl; split.
  - discriminate.
  - intros s [= <-] Hc Hs.
    now rewrite !bool_decide_eq_false_2 by assumption.
  - reflexivity.
  - discriminate.
Qed.

Lemma compare_password_untagged_witness :
  _compare_password Demo.X "secret" "secret" = Ok true
  /\ _compare_password Demo.X "secret" "Secret" = Ok false
  /\ _compare_password Demo.X "{MD5}abc" "{MD5}abc" = Ok false.
Proof.
  split; [|split].
  - apply (proj1 (compare_password_untagged Demo.X "secret" "secret")).
    reflexivity.
  - apply (proj1 (compare_password_untagged Demo.X "secret" "Secret")).
    reflexivity.
  - apply (proj2 (compare_password_untagged Demo.X "{MD5}abc" "{MD5}abc") "MD5");
      [reflexivity | discriminate | discriminate].
Defined.

(** *** Password change *)

Lemma getitem_mutate_entry (dn other : string) (entry : Entry) (self : LDAPObject) :
  cidict.getitem other (directory (mutate_entry dn entry self))
  = if decide (Py.lower dn = Py.lower other)
    then (fun _ => entry) <$> cidict.getitem other (directory self)
    else cidict.getitem other (directory self).
Proof.
  unfold mutate_entry, cidict.getitem. simpl.
  destruct (decide (Py.lower dn = Py.lower other)) as [->|Hne].
  - rewrite lookup_alter_eq. now destruct (directory self !! Py.lower other).
  - now rewrite lookup_alter_ne.
Qed.

(** C9. [_passwd_s] on a name that [str2dn] accepts. If the directory does
    not hold it, [NO_SUCH_OBJECT] is raised, with or without an old
    password. If it does and no old password is given, the entry's
    [userPassword] becomes the one-item list of the new password, whatever
    it was, and nothing else changes. If an old password is given and is
    equal, as an object, to the first stored [userPassword] value, the same
    replacement is made; the password verifier takes no part in it. *)
Theorem passwd_change (X : External) (user : string) (newpw : pyval)
    (self : LDAPObject) :
  str2dn_ok X user = true ->
  (cidict.getitem user (directory self) = None ->
   forall oldpw : option pyval,
     _passwd_s X user oldpw newpw self = (Raise NO_SUCH_OBJECT, self))
  /\ (forall entry : Entry,
        cidict.getitem user (directory self) = Some entry ->
        let replaced :=
          mutate_entry user (<["userPassword" := [newpw]]> entry) self in
        _passwd_s X user None newpw self = (Ok tt, replaced)
        /\ (forall (first : pyval) (rest : list pyval),
               entry !! "userPassword" = Some (first :: rest) ->
               _passwd_s X user (Some first) newpw self = (Ok tt, replaced))
        /\ cidict.getitem user (directory replaced)
           = Some (<["userPassword" := [newpw]]> entry)
        /\ (forall other : string,
               Py.lower other <> Py.lower user ->
               cidict.getitem other (directory replaced)
               = cidict.getitem other (directory self))).
Proof.
  intros Hdn. split.
  - intros Habs oldpw. unfold _passwd_s, _check_valid_dn.
    now rewrite Hdn, Habs.
  - intros entry He replaced. unfold _passwd_s, _check_valid_dn, set_password.
    rewrite Hdn, He. fold replaced.
    split; [reflexivity|]. split; [|split].
    + intros first rest Hpw. rewrite Hpw.
      now rewrite bool_decide_eq_true_2.
    + subst replaced. rewrite getitem_mutate_entry.
      rewrite decide_True by reflexivity. now rewrite He.
    + intros other Hne. subst replaced. rewrite getitem_mutate_entry.
      rewrite decide_False by congruence. reflexivity.
Qed.

(** A tagged stored value is replaced when the old password repeats it
    letter for letter, tag included. *)
Lemma passwd_change_witness :
  let self := mutate_entry Demo.alice_dn
                (<["userPassword" := [Bytes "{SSHA}c2VjcmV0"]]> Demo.alice) Demo.conn in
  fst (_passwd_s Demo.X "cn=bob,dc=example,dc=com" None (Bytes "new") self)
  = Raise NO_SUCH_OBJECT
  /\ fst (_passwd_s Demo.X Demo.alice_dn
            (Some (Bytes "{SSHA}c2VjcmV0")) (Bytes "new") self)
     = Ok tt.
Proof.
  intros self. split.
  - rewrite (proj1 (passwd_change Demo.X "cn=bob,dc=example,dc=com"
                      (Bytes "new") self eq_refl) eq_refl None).
    reflexivity.
  - destruct (proj2 (passwd_change Demo.X Demo.alice_dn (Bytes "new") self eq_refl)
                (<["userPassword" := [Bytes "{SSHA}c2VjcmV0"]]> Demo.alice)
                eq_refl) as (_ & Hold & _).
    rewrite (Hold (Bytes "{SSHA}c2VjcmV0") [] eq_refl). reflexivity.
Defined.

(** C10. On an entry that the directory holds under a name that [str2dn]
    accepts, with a non-empty [userPassword], an old password that differs
    from the first stored value makes [_passwd_s] return without raising
    and leaves the whole object as it was. *)
Theorem passwd_wrong_old_password (X : External) (user : string)
    (old newpw first : pyval) (rest : list pyval) (entry : Entry)
    (self : LDAPObject) :
  str2dn_ok X user = true ->
  cidict.getitem user (directory self) = Some entry ->
  entry !! "userPassword" = Some (first :: rest) ->
  old <> first ->
  _passwd_s X user (Some old) newpw self = (Ok tt, self).
Proof.
  intros Hdn He Hpw Hne. unfold _passwd_s, _check_valid_dn.
  rewrite Hdn, He, Hpw. rewrite bool_decide_eq_false_2 by congruence.
  reflexivity.
Qed.

Lemma passwd_wrong_old_password_witness :
  _passwd_s Demo.X Demo.alice_dn (Some (Bytes "guess")) (Bytes "new") Demo.conn
  = (Ok tt, Demo.conn).
Proof.
  apply (passwd_wrong_old_password Demo.X Demo.alice_dn (Bytes "guess")
           (Bytes "new") (Bytes "alicepw") [] Demo.alice Demo.conn);
    [reflexivity | reflexivity | reflexivity | discriminate].
Defined.

(** *** Simple bind *)

Lemma compare_s_absent (X : External) (self : LDAPObject) (dn attr value : string) :
  str2dn_ok X dn = true ->
  cidict.getitem dn (directory self) = None ->
  _compare_s X self dn attr value = Raise NO_SUCH_OBJECT.
Proof.
  intros Hdn Habs. unfold _compare_s, _check_valid_dn.
  now rewrite Hdn, Habs.
Qed.

(** C3. [simple_bind_s].
    - With an empty [who] and an empty [cred] it returns [(97, [])] and
      binds, whatever the directory holds.
    - Otherwise, if the compare of [cred] with [userPassword] answers 0, or
      if [who] is a name that [str2dn] accepts and the directory does not
      hold, it raises [INVALID_CREDENTIALS] with the text [who:cred] and
      leaves the object as it was.
    - It never raises [NO_SUCH_OBJECT].
    - Whenever it returns, the value is [(97, [])] and [bound_as] is [who],
      the rest of the object being as before; it returns when the compare
      answers 1. *)
Theorem simple_bind (X : External) (who cred : string) (self : LDAPObject) :
  simple_bind_s X "" "" self = (Ok (97, []), set_bound_as (Some "") self)
  /\ (~ (who = "" /\ cred = "") ->
      _compare_s X self who "userPassword" cred = Ok 0
      \/ (str2dn_ok X who = true /\ cidict.getitem who (directory self) = None) ->
      simple_bind_s X who cred self
      = (Raise (INVALID_CREDENTIALS (who +:+ ":" +:+ cred)), self))
  /\ fst (simple_bind_s X who cred self) <> Raise NO_SUCH_OBJECT
  /\ (forall (r : Z * list string) (self' : LDAPObject),
         simple_bind_s X who cred self = (Ok r, self') ->
         r = (97, []) /\ self' = set_bound_as (Some who) self
         /\ bound_as self' = Some who)
  /\ (_compare_s X self who "userPassword" cred = Ok 1 ->
      simple_bind_s X who cred self = (Ok (97, []), set_bound_as (Some who) self)).
Proof.
  split; [reflexivity|].
  unfold simple_bind_s.
  destruct (bool_decide (who = "") && bool_decide (cred = "")) eqn:Hanon.
  - apply andb_true_iff in Hanon as [Hw Hc].
    apply bool_decide_eq_true in Hw, Hc.
    split; [intros Hna; exfalso; now apply Hna|].
    split; [discriminate|].
    split; [|reflexivity].
    now intros r self' [= <- <-].
  - split; [|split; [|split]].
    + intros _ [Hcmp|[Hdn Habs]].
      * now rewrite Hcmp.
      * now rewrite (compare_s_absent X self who "userPassword" cred Hdn Habs).
    + destruct (_compare_s X self who "userPassword" cred) as [r|e].
      * destruct (negb (r =? 0)); discriminate.
      * destruct e; discriminate.
    + intros r self'.
      destruct (_compare_s X self who "userPassword" cred) as [r0|e].
      * destruct (negb (r0 =? 0)); [|discriminate].
        now intros [= <- <-].
      * destruct e; discriminate.
    + now intros ->.
Qed.

Lemma simple_bind_witness :
  simple_bind_s Demo.X Demo.alice_dn "guess" Demo.conn
  = (Raise (INVALID_CREDENTIALS "cn=alice,dc=example,dc=com:guess"), Demo.conn)
  /\ simple_bind_s Demo.X "cn=bob,dc=example,dc=com" "bobpw" Demo.conn
     = (Raise (INVALID_CREDENTIALS "cn=bob,dc=example,dc=com:bobpw"), Demo.conn)
  /\ bound_as (snd (simple_bind_s Demo.X Demo.alice_dn "alicepw" Demo.conn))
     = Some Demo.alice_dn.
Proof.
  split; [|split].
  - apply (proj1 (proj2 (simple_bind Demo.X Demo.alice_dn "guess" Demo.conn))).
    + intros [H _]. discriminate H.
    + left. reflexivity.
  - apply (proj1 (proj2 (simple_bind Demo.X "cn=bob,dc=example,dc=com" "bobpw"
                           Demo.conn))).
    + intros [H _]. discriminate H.
    + right. split; reflexivity.
  - rewrite (proj2 (proj2 (proj2 (proj2
               (simple_bind Demo.X Demo.alice_dn "alicepw" Demo.conn)))) eq_refl).
    reflexivity.
Defined.

(** *** Rename *)

Lemma rename_alice_run (X : External) (self : LDAPObject) (entry : Entry) :
  str2dn_ok X "cn=alice,dc=example,dc=com" = true ->
  str2dn_ok X "cn=al" = true ->
  cidict.getitem "cn=alice,dc=example,dc=com" (directory self) = Some entry ->
  entry !! "cn" = Some [Bytes "alice"; Bytes "al"] ->
  cidict.getitem "cn=al,dc=example,dc=com" (directory self) = None ->
  _rename_s X "cn=alice,dc=example,dc=com" "cn=al" None self
  = (Ok (109, []),
     set_directory
       (delete "cn=alice,dc=example,dc=com"
          (<["cn=al,dc=example,dc=com" :=
               ("cn=al,dc=example,dc=com", <["cn" := [Bytes "al"]]> entry)]>
             (directory self))) self).
Proof.
  intros H1 H2 He Hcn Hnew.
  unfold _rename_s, _check_valid_dn. rewrite H1, H2.
  cbn [truthy rbind of_option]. rewrite He. cbn [rbind of_option].
  change (Py.join "," (Py.tail_slice (Py.split "," "cn=alice,dc=example,dc=com")))
    with "dc=example,dc=com".
  change ("cn=al" +:+ "," +:+ "dc=example,dc=com") with "cn=al,dc=example,dc=com".
  apply contains_false_iff in Hnew. rewrite Hnew.
  change (unpack2 (Py.split "=" (head_or_empty (Py.split "," "cn=alice,dc=example,dc=com"))))
    with (Ok ("cn", "alice")).
  change (unpack2 (Py.split "=" "cn=al")) with (Ok ("cn", "al")).
  cbn [rbind].
  assert (Hd : drop_old "cn" "cn" (Bytes "alice") entry
               = Ok (<["cn" := [Bytes "al"]]> entry)).
  { unfold drop_old. rewrite bool_decide_eq_true_2 by reflexivity.
    rewrite Hcn. reflexivity. }
  rewrite Hd. cbn [rbind].
  assert (Hp : put_new "cn" (Bytes "al") (<["cn" := [Bytes "al"]]> entry)
               = <["cn" := [Bytes "al"]]> entry).
  { unfold put_new. rewrite lookup_insert_eq. reflexivity. }
  rewrite Hp. reflexivity.
Qed.

(** C7. In a directory that holds [cn=alice,dc=example,dc=com] with
    [cn = [alice, al]] and holds nothing under [cn=al,dc=example,dc=com],
    [_rename_s] to [cn=al] without a new superior returns [(109, [])]; the
    entry is then filed under the key [cn=al,dc=example,dc=com], its [cn] is
    exactly [[al]], its other attributes are as they were, and the old key
    is gone from the directory. *)
Theorem rename_alice_to_al (X : External) (self : LDAPObject) (entry : Entry) :
  str2dn_ok X "cn=alice,dc=example,dc=com" = true ->
  str2dn_ok X "cn=al" = true ->
  cidict.getitem "cn=alice,dc=example,dc=com" (directory self) = Some entry ->
  entry !! "cn" = Some [Bytes "alice"; Bytes "al"] ->
  cidict.getitem "cn=al,dc=example,dc=com" (directory self) = None ->
  let out := _rename_s X "cn=alice,dc=example,dc=com" "cn=al" None self in
  fst out = Ok (109, [])
  /\ (exists entry' : Entry,
         directory (snd out) !! "cn=al,dc=example,dc=com"
         = Some ("cn=al,dc=example,dc=com", entry')
         /\ entry' !! "cn" = Some [Bytes "al"]
         /\ (forall attr : string, attr <> "cn" -> entry' !! attr = entry !! attr))
  /\ cidict.getitem "cn=alice,dc=example,dc=com" (directory (snd out)) = None
  /\ cidict.contains "cn=alice,dc=example,dc=com" (directory (snd out)) = false
  /\ (forall other : string,
         Py.lower other <> "cn=alice,dc=example,dc=com" ->
         Py.lower other <> "cn=al,dc=example,dc=com" ->
         cidict.getitem other (directory (snd out))
         = cidict.getitem other (directory self)).
Proof.
  intros H1 H2 He Hcn Hnew out. subst out.
  rewrite (rename_alice_run X self entry H1 H2 He Hcn Hnew). simpl.
  assert (Hgone : cidict.getitem "cn=alice,dc=example,dc=com"
                    (delete "cn=alice,dc=example,dc=com"
                       (<["cn=al,dc=example,dc=com" :=
                            ("cn=al,dc=example,dc=com", <["cn" := [Bytes "al"]]> entry)]>
                          (directory self))) = None).
  { unfold cidict.getitem.
    change (Py.lower "cn=alice,dc=example,dc=com") with "cn=alice,dc=example,dc=com".
    now rewrite lookup_delete_eq. }
  split; [reflexivity|]. split; [|split; [|split]].
  - exists (<["cn" := [Bytes "al"]]> entry). split; [|split].
    + rewrite lookup_delete_ne by discriminate. apply lookup_insert_eq.
    + apply lookup_insert_eq.
    + intros attr Hne. now rewrite lookup_insert_ne.
  - exact Hgone.
  - now apply contains_false_iff.
  - intros other Ho Hn. unfold cidict.getitem.
    rewrite lookup_delete_ne by congruence.
    now rewrite lookup_insert_ne by congruence.
Qed.

(** The scenario in the smallest directory that has it. *)
Lemma rename_alice_to_al_witness :
  let self := init {[ Demo.alice_dn :=
                        (Demo.alice_dn,
                         ({[ "cn" := [Bytes "alice"; Bytes "al"] ]} : Entry)) ]} in
  let out := _rename_s Demo.X "cn=alice,dc=example,dc=com" "cn=al" None self in
  fst out = Ok (109, [])
  /\ cidict.getitem "cn=alice,dc=example,dc=com" (directory (snd out)) = None.
Proof.
  intros self out.
  destruct (rename_alice_to_al Demo.X self {[ "cn" := [Bytes "alice"; Bytes "al"] ]}
              eq_refl eq_refl eq_refl eq_refl eq_refl) as (Hret & _ & Hgone & _).
  split; [exact Hret | exact Hgone].
Defined.

(** *** The queue of asynchronous results *)

Lemma modify_loop_async (dn : string) (mod_attrs : list (Z * string * modvalue))
    (self : LDAPObject) :
  async_results (snd (modify_loop dn mod_attrs self)) = async_results self.
Proof.
  revert self. induction mod_attrs as [|[[op key] value] rest IH]; intros self;
    simpl; [reflexivity|].
  destruct (cidict.getitem dn (directory self)) as [entry|]; [|reflexivity].
  destruct (apply_mod op key value entry) as [entry'|e]; [|reflexivity].
  now rewrite IH.
Qed.

(** Only [search] and [result] touch the queue: the one appends a slot, the
    other empties one. *)
Lemma run_async_results (X : External) (c : call) (self : LDAPObject) :
  async_results (run X c self)
  = match c with
    | Search base scope filterstr attrlist attrsonly =>
        match _search_s X (recorded self) base scope filterstr attrlist attrsonly with
        | Ok value => (async_results self ++ [Some value])%list
        | Raise _ => async_results self
        end
    | Result msgid =>
        if (0 <=? msgid) && (msgid <? Z.of_nat (length (async_results self)))
        then <[Z.to_nat msgid := None]> (async_results self)
        else async_results self
    | _ => async_results self
    end.
Proof.
  destruct c; simpl; try reflexivity.
  - unfold simple_bind_s.
    destruct (bool_decide (who = "") && bool_decide (cred = "")); [reflexivity|].
    destruct (_compare_s X (recorded self) who "userPassword" cred) as [r|e].
    + now destruct (negb (r =? 0)).
    + now destruct e.
  - unfold search.
    now destruct (_search_s X (recorded self) base scope filterstr attrlist attrsonly).
  - unfold result_, _pop_async_result. simpl.
    now destruct ((0 <=? msgid) && (msgid <? Z.of_nat (length (async_results self)))).
  - unfold _modify_s. destruct (_check_valid_dn X dn); [|reflexivity].
    pose proof (modify_loop_async dn mod_attrs (recorded self)) as H.
    destruct (modify_loop dn mod_attrs (recorded self)) as [[u|e] s']; exact H.
  - unfold _add_s.
    destruct (let! _ := _check_valid_dn X dn in build_entry record ∅); [|reflexivity].
    now destruct (cidict.getitem dn (directory (recorded self))).
  - unfold _rename_s.
    match goal with |- context [match ?t with Ok _ => _ | Raise _ => _ end] =>
      destruct t as [[n e]|e] end; reflexivity.
  - unfold _delete_s. destruct (_check_valid_dn X dn); [|reflexivity].
    now destruct (cidict.delitem dn (directory (recorded self))).
  - unfold _passwd_s. destruct (_check_valid_dn X user); [|reflexivity].
    destruct (cidict.getitem user (directory (recorded self))) as [entry|];
      [|reflexivity].
    destruct oldpw as [old|]; [|reflexivity].
    destruct (entry !! "userPassword") as [[|first rest]|]; try reflexivity.
    now destruct (bool_decide (first = old)).
Qed.

Lemma run_keeps_pending (X : External) (c : call) (self : LDAPObject) (n : nat)
    (value : SearchResult) :
  async_results self !! n = Some (Some value) ->
  c <> Result (Z.of_nat n) ->
  async_results (run X c self) !! n = Some (Some value).
Proof.
  intros Hn Hc. rewrite run_async_results.
  destruct c; try exact Hn.
  - destruct (_search_s X (recorded self) base scope filterstr attrlist attrsonly);
      [|exact Hn].
    rewrite lookup_app_l; [exact Hn|]. now apply lookup_lt_Some in Hn.
  - destruct ((0 <=? msgid) && (msgid <? Z.of_nat (length (async_results self))))
      eqn:Hrange; [|exact Hn].
    rewrite list_lookup_insert_ne; [exact Hn|].
    intros <-. apply Hc. f_equal. lia.
Qed.

Lemma run_keeps_cleared (X : External) (c : call) (self : LDAPObject) (n : nat) :
  async_results self !! n = Some None ->
  async_results (run X c self) !! n = Some None.
Proof.
  intros Hn. rewrite run_async_results.
  destruct c; try exact Hn.
  - destruct (_search_s X (recorded self) base scope filterstr attrlist attrsonly);
      [|exact Hn].
    rewrite lookup_app_l; [exact Hn|]. now apply lookup_lt_Some in Hn.
  - destruct ((0 <=? msgid) && (msgid <? Z.of_nat (length (async_results self))));
      [|exact Hn].
    destruct (decide (Z.to_nat msgid = n)) as [->|Hne].
    + apply list_lookup_insert_eq. now apply lookup_lt_Some in Hn.
    + now rewrite list_lookup_insert_ne.
Qed.

Lemma run_all_keeps_pending (X : External) (calls : list call) (self : LDAPObject)
    (n : nat) (value : SearchResult) :
  async_results self !! n = Some (Some value) ->
  Result (Z.of_nat n) ∉ calls ->
  async_results (run_all X calls self) !! n = Some (Some value).
Proof.
  revert self. induction calls as [|c calls IH]; intros self Hn Hnot;
    [exact Hn|].
  apply not_elem_of_cons in Hnot as [Hc Hrest]. simpl.
  apply IH; [|exact Hrest]. apply run_keeps_pending; [exact Hn | congruence].
Qed.

Lemma run_all_keeps_cleared (X : External) (calls : list call) (self : LDAPObject)
    (n : nat) :
  async_results self !! n = Some None ->
  async_results (run_all X calls self) !! n = Some None.
Proof.
  revert self. induction calls as [|c calls IH]; intros self Hn; [exact Hn|].
  simpl. apply IH. now apply run_keeps_cleared.
Qed.

Lemma pop_slot (msgid : Z) (self : LDAPObject) (n : nat)
    (slot : option SearchResult) :
  msgid = Z.of_nat n ->
  async_results self !! n = Some slot ->
  fst (_pop_async_result msgid self) = slot
  /\ async_results (snd (_pop_async_result msgid self)) !! n = Some None.
Proof.
  intros -> Hn. unfold _pop_async_result.
  pose proof (lookup_lt_Some _ _ _ Hn) as Hlt.
  replace ((0 <=? Z.of_nat n) && (Z.of_nat n <? Z.of_nat (length (async_results self))))
    with true by (symmetry; apply andb_true_iff; split; lia).
  rewrite Nat2Z.id. simpl. rewrite Hn. split; [reflexivity|].
  now apply list_lookup_insert_eq.
Qed.

(** C2. A ticket that [search] has issued stays redeemable through any
    calls that are not a fetch of it. The first [result] on it returns
    [RES_SEARCH_RESULT] with a list, never [None]: the list that [_search_s]
    had computed, with the same names, and with the same entries as long
    as no call in between has changed an entry in place (the list holds the
    directory's own entry objects). Any [result] on the ticket afterwards,
    whatever was called in between, returns [RES_SEARCH_RESULT] with
    [None]. A [result] on a number outside the queue returns [None] too and
    changes nothing. [result] has no way to raise. *)
Theorem ticket_one_shot (X : External) (self : LDAPObject) :
  (forall (base : string) (scope : Z) (filterstr : string)
          (attrlist : option (list string)) (attrsonly : bool)
          (msgid : Z) (issued : LDAPObject),
      search X base scope filterstr attrlist attrsonly self = (Ok msgid, issued) ->
      exists value : SearchResult,
        _search_s X self base scope filterstr attrlist attrsonly = Ok value
        /\ forall before : list call,
             Result msgid ∉ before ->
             let fetched := result_ msgid (run_all X before issued) in
             (exists value' : SearchResult,
                 fst fetched = (RES_SEARCH_RESULT, Some value')
                 /\ fst <$> value' = fst <$> value
                 /\ (Forall leaves_entries_alone before -> value' = value))
             /\ forall after : list call,
                  fst (result_ msgid (run_all X after (snd fetched)))
                  = (RES_SEARCH_RESULT, None))
  /\ (forall msgid : Z,
         msgid < 0 \/ Z.of_nat (length (async_results self)) <= msgid ->
         result_ msgid self = ((RES_SEARCH_RESULT, None), self)).
Proof.
  split.
  - intros base scope filterstr attrlist attrsonly msgid issued Hsearch.
    unfold search in Hsearch.
    destruct (_search_s X self base scope filterstr attrlist attrsonly)
      as [value|e]; [|discriminate].
    exists value. split; [reflexivity|].
    unfold _add_async_result in Hsearch. injection Hsearch as Hid Hst.
    set (n := length (async_results self)).
    assert (Hmsgid : msgid = Z.of_nat n).
    { rewrite <- Hid, length_app. simpl. subst n. lia. }
    assert (Hslot : async_results issued !! n = Some (Some value)).
    { rewrite <- Hst. simpl. subst n. now rewrite list_lookup_middle. }
    intros before Hnot fetched. subst fetched. unfold result_.
    rewrite Hmsgid in Hnot.
    pose proof (run_all_keeps_pending X before issued n value Hslot Hnot) as Hpend.
    destruct (pop_slot msgid (run_all X before issued) n (Some value) Hmsgid Hpend)
      as [Hval Hcleared].
    destruct (_pop_async_result msgid (run_all X before issued)) as [v s1].
    simpl in Hval, Hcleared. subst v. simpl. split.
    { exists value. repeat split. }
    intros after.
    pose proof (run_all_keeps_cleared X after s1 n Hcleared) as Hc.
    destruct (pop_slot msgid (run_all X after s1) n None Hmsgid Hc) as [Hval _].
    destruct (_pop_async_result msgid (run_all X after s1)) as [v s2].
    simpl in Hval. now subst v.
  - intros msgid Hout. unfold result_, _pop_async_result.
    replace ((0 <=? msgid) && (msgid <? Z.of_nat (length (async_results self))))
      with false; [reflexivity|].
    symmetry. apply andb_false_iff. destruct Hout; [left | right]; lia.
Qed.

Lemma ticket_one_shot_witness :
  exists value : SearchResult,
    _search_s Demo.X Demo.conn "dc=example,dc=com" 2 "(objectClass=*)" None false
    = Ok value
    /\ fst (result_ 0 (run_all Demo.X Demo.before Demo.issued))
       = (RES_SEARCH_RESULT, Some value)
    /\ fst (result_ 0 (run_all Demo.X [Result 0]
                         (snd (result_ 0 (run_all Demo.X Demo.before Demo.issued)))))
       = (RES_SEARCH_RESULT, None).
Proof.
  assert (Hissued : search Demo.X "dc=example,dc=com" 2 "(objectClass=*)" None
                      false Demo.conn = (Ok 0, Demo.issued))
    by (vm_compute; reflexivity).
  destruct (proj1 (ticket_one_shot Demo.X Demo.conn) "dc=example,dc=com" 2
              "(objectClass=*)" None false 0 Demo.issued Hissued)
    as (value & Hvalue & Hfetch).
  exists value. split; [exact Hvalue|].
  assert (Hnot : Result 0 ∉ Demo.before).
  { unfold Demo.before. intros H.
    repeat (apply elem_of_cons in H as [H|H]; [discriminate H|]).
    now apply elem_of_nil in H. }
  assert (Halone : Forall leaves_entries_alone Demo.before)
    by (repeat constructor).
  destruct (Hfetch Demo.before Hnot) as [(value' & Hfirst & _ & Hsame) Hlater].
  split.
  - rewrite <- (Hsame Halone). exact Hfirst.
  - exact (Hlater [Result 0]).
Defined.

(** *** No attribute with an empty value list *)

























(** *** The operations on the example directory *)

Example modify_removes_emptied_attribute :
  cidict.getitem Demo.alice_dn
    (directory (run_all Demo.X Demo.edits Demo.conn))
  = Some {[ "objectClass" := [Bytes "person"];
            "uid" := [Bytes "alice"];
            "userPassword" := [Bytes "changed"] ]}.
Proof. vm_compute. reflexivity. Qed.

Example rename_swaps_single_value :
  cidict.getitem "UID=Robert,DC=example,DC=com"
    (directory (run_all Demo.X Demo.edits Demo.conn))
  = Some {[ "uid" := [Bytes "robert"] ]}.
Proof. vm_compute. reflexivity. Qed.

Example rename_alice_result :
  directory (snd (_rename_s Demo.X Demo.alice_dn "cn=al" None
                    (init {[ Demo.alice_dn :=
                               (Demo.alice_dn,
                                {[ "cn" := [Bytes "alice"; Bytes "al"] ]}) ]})))
  = {[ "cn=al,dc=example,dc=com" :=
         ("cn=al,dc=example,dc=com", {[ "cn" := [Bytes "al"] ]}) ]}.
Proof. vm_compute. reflexivity. Qed.

Example add_with_empty_list :
  cidict.getitem "cn=carol,dc=example,dc=com"
    (directory (snd (_add_s Demo.X "cn=carol,dc=example,dc=com" [("cn", [])]
                       Demo.conn)))
  = Some {[ "cn" := [] ]}.
Proof. vm_compute. reflexivity. Qed.

Example modify_nothing_on_absent_name :
  _modify_s Demo.X "cn=bob,dc=example,dc=com" [] Demo.conn
  = (Ok (103, []), Demo.conn).
Proof. reflexivity. Qed.

Example bind_rejects_malformed_name :
  fst (simple_bind_s Demo.X "alice" "alicepw" Demo.conn) = Raise INVALID_DN_SYNTAX.
Proof. reflexivity. Qed.

(** ** Further properties of the operations *)

(** *** Modify: one modification, and modifications in sequence *)

Lemma mutate_entry_twice (dn : string) (e1 e2 : Entry) (self : LDAPObject) :
  mutate_entry dn e2 (mutate_entry dn e1 self) = mutate_entry dn e2 self.
Proof.
  unfold mutate_entry, set_directory. simpl. f_equal.
  apply map_eq. intros k. destruct (decide (Py.lower dn = k)) as [<-|Hne].
  - rewrite !lookup_alter_eq. now destruct (directory self !! Py.lower dn).
  - now rewrite !lookup_alter_ne.
Qed.

Lemma getitem_mutate_same (dn : string) (entry entry' : Entry) (self : LDAPObject) :
  cidict.getitem dn (directory self) = Some entry ->
  cidict.getitem dn (directory (mutate_entry dn entry' self)) = Some entry'.
Proof.
  intros He. rewrite getitem_mutate_entry, decide_True by reflexivity.
  now rewrite He.
Qed.

Lemma modify_loop_app (dn : string) (ms1 ms2 : list (Z * string * modvalue))
    (self : LDAPObject) :
  modify_loop dn (ms1 ++ ms2)%list self
  = match modify_loop dn ms1 self with
    | (Ok _, self') => modify_loop dn ms2 self'
    | (Raise e, self') => (Raise e, self')
    end.
Proof.
  revert self. induction ms1 as [|[[op key] value] ms1 IH]; intros self; simpl;
    [reflexivity|].
  destruct (cidict.getitem dn (directory self)) as [entry|]; [|reflexivity].
  destruct (apply_mod op key value entry) as [entry'|e]; [|reflexivity].
  apply IH.
Qed.

(** X1. [_modify_s] on the concatenation of two lists of modifications is
    [_modify_s] on the first followed, if that returned, by [_modify_s] on
    the second; if the first raised, its exception and the state it left,
    with the earlier modifications applied, are the outcome. *)
Theorem modify_in_sequence (X : External) (dn : string)
    (ms1 ms2 : list (Z * string * modvalue)) (self : LDAPObject) :
  _modify_s X dn (ms1 ++ ms2)%list self
  = match _modify_s X dn ms1 self with
    | (Ok _, self') => _modify_s X dn ms2 self'
    | (Raise e, self') => (Raise e, self')
    end.
Proof.
  unfold _modify_s. destruct (_check_valid_dn X dn); [|reflexivity].
  rewrite modify_loop_app.
  destruct (modify_loop dn ms1 self) as [[u|e] self']; reflexivity.
Qed.

Lemma append_new_elem (l : list pyval) (v x : pyval) :
  x ∈ append_new l v <-> x ∈ l \/ x = v.
Proof.
  unfold append_new, Py.mem. case_bool_decide as Hin.
  - split; [now left | intros [H| ->]; assumption].
  - rewrite elem_of_app, list_elem_of_singleton. reflexivity.
Qed.

Lemma foldl_append_new_elem (value l : list pyval) (x : pyval) :
  x ∈ foldl append_new l value <-> x ∈ l \/ x ∈ value.
Proof.
  revert l. induction value as [|v value IH]; intros l; simpl.
  - rewrite elem_of_nil. tauto.
  - rewrite IH, append_new_elem, elem_of_cons. tauto.
Qed.

Lemma foldl_append_new_known (value l : list pyval) :
  (forall x, x ∈ value -> x ∈ l) -> foldl append_new l value = l.
Proof.
  revert l. induction value as [|v value IH]; intros l Hin; simpl; [reflexivity|].
  assert (Hv : append_new l v = l).
  { unfold append_new, Py.mem. rewrite bool_decide_eq_true_2; [reflexivity|].
    apply Hin. now left. }
  rewrite Hv. apply IH. intros x Hx. apply Hin. now right.
Qed.

Lemma foldl_append_new_NoDup (value l : list pyval) :
  NoDup l -> NoDup (foldl append_new l value).
Proof.
  revert l. induction value as [|v value IH]; intros l Hl; simpl; [exact Hl|].
  apply IH. unfold append_new, Py.mem. case_bool_decide as Hin; [exact Hl|].
  apply NoDup_app. repeat split; [exact Hl | | apply NoDup_singleton].
  intros x Hx Hxv. apply list_elem_of_singleton in Hxv. now subst.
Qed.

Lemma foldl_append_new_prefix (value l : list pyval) :
  l `prefix_of` foldl append_new l value.
Proof.
  revert l. induction value as [|v value IH]; intros l; simpl; [reflexivity|].
  etransitivity; [|apply IH]. unfold append_new.
  destruct (Py.mem v l); [reflexivity | now apply prefix_app_r].
Qed.

Lemma apply_mod_add_again (key : string) (value : modvalue) (entry entry' : Entry) :
  apply_mod MOD_ADD key value entry = Ok entry' ->
  apply_mod MOD_ADD key value entry' = Ok entry'.
Proof.
  unfold apply_mod. simpl.
  case_bool_decide as Hv; [discriminate|].
  destruct (check_bytes (normalize value)); [|discriminate]. simpl.
  destruct (entry !! key) as [old|] eqn:Hold; intros [= <-];
    rewrite lookup_insert_eq, insert_insert_eq; do 2 f_equal;
    apply foldl_append_new_known; intros x Hx; [|exact Hx].
  apply foldl_append_new_elem. now right.
Qed.

(** X2. Adding the same values to an attribute twice in one [_modify_s] is
    the same as adding them once: same outcome, same state. *)
Theorem modify_add_idempotent (X : External) (dn key : string) (value : modvalue)
    (self : LDAPObject) :
  _modify_s X dn [(MOD_ADD, key, value); (MOD_ADD, key, value)] self
  = _modify_s X dn [(MOD_ADD, key, value)] self.
Proof.
  unfold _modify_s. destruct (_check_valid_dn X dn); [|reflexivity].
  cbn [modify_loop].
  destruct (cidict.getitem dn (directory self)) as [entry|] eqn:He; [|reflexivity].
  destruct (apply_mod MOD_ADD key value entry) as [entry'|e] eqn:Hm; [|reflexivity].
  rewrite (getitem_mutate_same dn entry entry' self He).
  rewrite (apply_mod_add_again key value entry entry' Hm).
  now rewrite mutate_entry_twice.
Qed.

Lemma modify_one (X : External) (dn : string) (op : Z) (key : string)
    (value : modvalue) (entry : Entry) (self : LDAPObject) :
  str2dn_ok X dn = true ->
  cidict.getitem dn (directory self) = Some entry ->
  _modify_s X dn [(op, key, value)] self
  = match apply_mod op key value entry with
    | Ok entry' => (Ok (103, []), mutate_entry dn entry' self)
    | Raise e => (Raise e, self)
    end.
Proof.
  intros Hdn He. unfold _modify_s, _check_valid_dn. rewrite Hdn.
  cbn [modify_loop]. rewrite He.
  now destruct (apply_mod op key value entry).
Qed.

Lemma mutate_entry_same (dn : string) (entry : Entry) (self : LDAPObject) :
  cidict.getitem dn (directory self) = Some entry ->
  mutate_entry dn entry self = self.
Proof.
  intros He. unfold mutate_entry, set_directory. destruct self as [d q o t b n].
  simpl in *. f_equal. apply alter_id. intros [orig e] Hk.
  unfold cidict.getitem in He. rewrite Hk in He. simpl in He.
  injection He as ->. reflexivity.
Qed.

(** X3. [MOD_ADD] on an entry the directory holds, with a non-empty list of
    byte strings. If the attribute is absent it becomes the list as given.
    If it is present, the values it lacks are appended: the old list is a
    prefix of the new one, the new one holds exactly the old and the given
    values, and it has no duplicates if the old one had none. The other
    attributes are kept. *)
Theorem modify_add_values (X : External) (dn key : string) (values : list pyval)
    (entry : Entry) (self : LDAPObject) :
  str2dn_ok X dn = true ->
  cidict.getitem dn (directory self) = Some entry ->
  values <> [] ->
  forallb is_bytes values = true ->
  exists new : list pyval,
    _modify_s X dn [(MOD_ADD, key, MList values)] self
    = (Ok (103, []), mutate_entry dn (<[key := new]> entry) self)
    /\ cidict.getitem dn
         (directory (snd (_modify_s X dn [(MOD_ADD, key, MList values)] self)))
       = Some (<[key := new]> entry)
    /\ (entry !! key = None -> new = values)
    /\ (forall old : list pyval,
           entry !! key = Some old ->
           old `prefix_of` new
           /\ (forall x : pyval, x ∈ new <-> x ∈ old \/ x ∈ values)
           /\ (NoDup old -> NoDup new)).
Proof.
  intros Hdn He Hne Hb.
  rewrite (modify_one X dn MOD_ADD key (MList values) entry self Hdn He).
  unfold apply_mod, check_bytes. simpl.
  rewrite bool_decide_eq_false_2 by exact Hne. rewrite Hb. simpl.
  destruct (entry !! key) as [old|] eqn:Hold.
  - exists (foldl append_new old values). split; [reflexivity|]. split.
    { simpl. exact (getitem_mutate_same dn entry _ self He). }
    split; [discriminate|]. intros old' [= <-]. split; [|split].
    + apply foldl_append_new_prefix.
    + intros x. apply foldl_append_new_elem.
    + apply foldl_append_new_NoDup.
  - exists values. split; [reflexivity|]. split.
    { simpl. exact (getitem_mutate_same dn entry _ self He). }
    split; [reflexivity | discriminate].
Qed.

Lemma modify_add_values_witness :
  exists new : list pyval,
    cidict.getitem Demo.alice_dn
      (directory (snd (_modify_s Demo.X Demo.alice_dn
                         [(MOD_ADD, "cn", MList [Bytes "al"; Bytes "ally"])]
                         Demo.conn)))
    = Some (<["cn" := new]> Demo.alice)
    /\ [Bytes "alice"; Bytes "al"] `prefix_of` new
    /\ Bytes "ally" ∈ new
    /\ NoDup new.
Proof.
  destruct (modify_add_values Demo.X Demo.alice_dn "cn" [Bytes "al"; Bytes "ally"]
              Demo.alice Demo.conn eq_refl eq_refl ltac:(discriminate) eq_refl)
    as (new & _ & Hget & _ & Hold).
  destruct (Hold [Bytes "alice"; Bytes "al"] eq_refl) as (Hpre & Hin & Hnd).
  exists new. split; [exact Hget|]. split; [exact Hpre|]. split.
  - apply Hin. right. apply elem_of_cons. right. apply list_elem_of_singleton.
    reflexivity.
  - apply Hnd. apply NoDup_cons. split.
    + intros H. apply list_elem_of_singleton in H. discriminate H.
    + apply NoDup_singleton.
Defined.

(** X4. [MOD_ADD] refuses what it cannot add, on an entry the directory
    holds: with [None] or an empty list it raises [PROTOCOL_ERROR]; with a
    non-empty list that holds something other than a byte string it raises
    [TypeError]. The object is left as it was. *)
Theorem modify_add_refused (X : External) (dn key : string) (value : modvalue)
    (entry : Entry) (self : LDAPObject) :
  str2dn_ok X dn = true ->
  cidict.getitem dn (directory self) = Some entry ->
  (normalize value = [] ->
   _modify_s X dn [(MOD_ADD, key, value)] self = (Raise PROTOCOL_ERROR, self))
  /\ (normalize value <> [] -> forallb is_bytes (normalize value) = false ->
      _modify_s X dn [(MOD_ADD, key, value)] self = (Raise TypeError, self)).
Proof.
  intros Hdn He.
  rewrite (modify_one X dn MOD_ADD key value entry self Hdn He).
  unfold apply_mod, check_bytes. simpl. split.
  - intros Hv. now rewrite bool_decide_eq_true_2.
  - intros Hv Hb. rewrite bool_decide_eq_false_2 by exact Hv. now rewrite Hb.
Qed.

Lemma modify_add_refused_witness :
  _modify_s Demo.X Demo.alice_dn [(MOD_ADD, "mail", MNone)] Demo.conn
  = (Raise PROTOCOL_ERROR, Demo.conn)
  /\ _modify_s Demo.X Demo.alice_dn [(MOD_ADD, "mail", MScalar (Text "a@b"))] Demo.conn
     = (Raise TypeError, Demo.conn).
Proof.
  split.
  - apply (proj1 (modify_add_refused Demo.X Demo.alice_dn "mail" MNone
                    Demo.alice Demo.conn eq_refl eq_refl)).
    reflexivity.
  - apply (proj2 (modify_add_refused Demo.X Demo.alice_dn "mail"
                    (MScalar (Text "a@b")) Demo.alice Demo.conn eq_refl eq_refl));
      [discriminate | reflexivity].
Defined.

(** X5. [MOD_REPLACE] on an entry the directory holds, with values that are
    byte strings: [_modify_s] returns [(103, [])]; the attribute is then
    absent if no value was given (whether or not it was present) and
    otherwise holds exactly the values given; the other attributes of the
    entry are as before. *)
Theorem modify_replace (X : External) (dn key : string) (value : modvalue)
    (entry : Entry) (self : LDAPObject) :
  str2dn_ok X dn = true ->
  cidict.getitem dn (directory self) = Some entry ->
  forallb is_bytes (normalize value) = true ->
  exists entry' : Entry,
    _modify_s X dn [(MOD_REPLACE, key, value)] self
    = (Ok (103, []), mutate_entry dn entry' self)
    /\ cidict.getitem dn (directory (mutate_entry dn entry' self)) = Some entry'
    /\ entry' !! key
       = match normalize value with [] => None | _ :: _ => Some (normalize value) end
    /\ (forall attr : string, attr <> key -> entry' !! attr = entry !! attr).
Proof.
  intros Hdn He Hb.
  rewrite (modify_one X dn MOD_REPLACE key value entry self Hdn He).
  unfold apply_mod, check_bytes. simpl. rewrite Hb.
  destruct (normalize value) as [|v vs] eqn:Hv; simpl.
  - exists (delete key entry). split; [reflexivity|]. split.
    { exact (getitem_mutate_same dn entry _ self He). }
    split; [apply lookup_delete_eq|].
    intros attr Hne. now apply lookup_delete_ne.
  - exists (<[key := v :: vs]> entry). split; [reflexivity|]. split.
    { exact (getitem_mutate_same dn entry _ self He). }
    split; [apply lookup_insert_eq|].
    intros attr Hne. now apply lookup_insert_ne.
Qed.

Lemma modify_replace_witness :
  exists entry' : Entry,
    _modify_s Demo.X Demo.alice_dn [(MOD_REPLACE, "cn", MList [])] Demo.conn
    = (Ok (103, []), mutate_entry Demo.alice_dn entry' Demo.conn)
    /\ entry' !! "cn" = None
    /\ entry' !! "userPassword" = Some [Bytes "alicepw"].
Proof.
  destruct (modify_replace Demo.X Demo.alice_dn "cn" (MList []) Demo.alice
              Demo.conn eq_refl eq_refl eq_refl)
    as (entry' & Hrun & _ & Hkey & Hother).
  exists entry'. split; [exact Hrun|]. split; [exact Hkey|].
  rewrite (Hother "userPassword"); [reflexivity | discriminate].
Defined.

(** X6. [MOD_DELETE] on an entry the directory holds.
    - An attribute the entry lacks: nothing happens and nothing is raised,
      whatever the values given, byte strings or not.
    - No value given: the attribute goes.
    - Byte strings given: the values of the attribute that are not among
      them stay, in their order; if none stays the attribute goes.
    The other attributes are as before. *)
Theorem modify_delete (X : External) (dn key : string) (value : modvalue)
    (entry : Entry) (self : LDAPObject) :
  str2dn_ok X dn = true ->
  cidict.getitem dn (directory self) = Some entry ->
  (entry !! key = None ->
   _modify_s X dn [(MOD_DELETE, key, value)] self = (Ok (103, []), self))
  /\ (forall old : list pyval,
         entry !! key = Some old ->
         forallb is_bytes (normalize value) = true ->
         exists entry' : Entry,
           _modify_s X dn [(MOD_DELETE, key, value)] self
           = (Ok (103, []), mutate_entry dn entry' self)
           /\ (forall attr : string, attr <> key -> entry' !! attr = entry !! attr)
           /\ (normalize value = [] -> entry' !! key = None)
           /\ (normalize value <> [] ->
               let kept := filter (fun v => v ∉ normalize value) old in
               entry' !! key = match kept with [] => None | _ :: _ => Some kept end)).
Proof.
  intros Hdn He.
  rewrite (modify_one X dn MOD_DELETE key value entry self Hdn He).
  unfold apply_mod, check_bytes. simpl. split.
  - intros ->. now rewrite (mutate_entry_same dn entry self He).
  - intros old -> Hb. rewrite Hb. simpl.
    case_bool_decide as Hv.
    + exists (delete key entry). split; [reflexivity|]. split.
      { intros attr Hne. now apply lookup_delete_ne. }
      split; [intros _; apply lookup_delete_eq | congruence].
    + destruct (filter (fun v => v ∉ normalize value) old) as [|k ks] eqn:Hk; simpl.
      * exists (delete key entry). split; [reflexivity|]. split.
        { intros attr Hne. now apply lookup_delete_ne. }
        split; [congruence | intros _; apply lookup_delete_eq].
      * exists (<[key := k :: ks]> entry). split; [reflexivity|]. split.
        { intros attr Hne. now apply lookup_insert_ne. }
        split; [congruence | intros _; apply lookup_insert_eq].
Qed.

Lemma modify_delete_witness :
  _modify_s Demo.X Demo.alice_dn [(MOD_DELETE, "mail", MScalar (Text "x"))] Demo.conn
  = (Ok (103, []), Demo.conn)
  /\ exists entry' : Entry,
       _modify_s Demo.X Demo.alice_dn [(MOD_DELETE, "cn", MScalar (Bytes "al"))] Demo.conn
       = (Ok (103, []), mutate_entry Demo.alice_dn entry' Demo.conn)
       /\ entry' !! "cn" = Some [Bytes "alice"].
Proof.
  destruct (modify_delete Demo.X Demo.alice_dn "mail" (MScalar (Text "x"))
              Demo.alice Demo.conn eq_refl eq_refl) as [Habsent _].
  split; [exact (Habsent eq_refl)|].
  destruct (modify_delete Demo.X Demo.alice_dn "cn" (MScalar (Bytes "al"))
              Demo.alice Demo.conn eq_refl eq_refl) as [_ Hpresent].
  destruct (Hpresent [Bytes "alice"; Bytes "al"] eq_refl eq_refl)
    as (entry' & Hrun & _ & _ & Hkept).
  exists entry'. split; [exact Hrun|].
  exact (Hkept ltac:(discriminate)).
Defined.

(** X7. A modification whose operation code is none of [MOD_ADD],
    [MOD_DELETE] and [MOD_REPLACE] is passed over in silence on an entry
    the directory holds: [_modify_s] returns [(103, [])] and the object is
    as it was. On a name the directory lacks it still raises
    [NO_SUCH_OBJECT]. *)
Theorem modify_unknown_op (X : External) (dn : string) (op : Z) (key : string)
    (value : modvalue) (self : LDAPObject) :
  str2dn_ok X dn = true ->
  op <> MOD_ADD -> op <> MOD_DELETE -> op <> MOD_REPLACE ->
  _modify_s X dn [(op, key, value)] self
  = (if cidict.contains dn (directory self) then Ok (103, [])
     else Raise NO_SUCH_OBJECT, self).
Proof.
  intros Hdn Ha Hd Hr. rewrite contains_getitem.
  destruct (cidict.getitem dn (directory self)) as [entry|] eqn:He.
  - rewrite (modify_one X dn op key value entry self Hdn He).
    unfold apply_mod.
    rewrite (proj2 (Z.eqb_neq _ _) Ha), (proj2 (Z.eqb_neq _ _) Hd),
      (proj2 (Z.eqb_neq _ _) Hr).
    rewrite (mutate_entry_same dn entry self He).
    now rewrite bool_decide_eq_true_2 by eauto.
  - unfold _modify_s, _check_valid_dn. rewrite Hdn.
    rewrite (modify_loop_absent dn [(op, key, value)] self He) by discriminate.
    rewrite bool_decide_eq_false_2; [reflexivity|]. now intros [? ?].
Qed.

Lemma modify_unknown_op_witness :
  _modify_s Demo.X Demo.alice_dn [(7, "cn", MNone)] Demo.conn
  = (Ok (103, []), Demo.conn).
Proof.
  rewrite (modify_unknown_op Demo.X Demo.alice_dn 7 "cn" MNone Demo.conn eq_refl);
    [reflexivity | discriminate | discriminate | discriminate].
Defined.




(** *** The name is checked first *)

(** X9. Every operation that takes a name hands it to [str2dn] before
    anything else: for a name that [str2dn] rejects, compare, search,
    modify (even with no modification), add (even with an ill-typed
    record), delete, rename and password change raise [INVALID_DN_SYNTAX],
    whether or not the directory happens to hold a key of that spelling,
    and leave the object as it was. Rename does the same for a rejected new
    relative name and for a rejected non-empty new superior. *)
Theorem invalid_dn_rejected (X : External) (dn : string) (self : LDAPObject) :
  str2dn_ok X dn = false ->
  (forall attr value, _compare_s X self dn attr value = Raise INVALID_DN_SYNTAX)
  /\ (forall scope filterstr attrlist attrsonly,
         _search_s X self dn scope filterstr attrlist attrsonly
         = Raise INVALID_DN_SYNTAX)
  /\ (forall mod_attrs, _modify_s X dn mod_attrs self = (Raise INVALID_DN_SYNTAX, self))
  /\ (forall record, _add_s X dn record self = (Raise INVALID_DN_SYNTAX, self))
  /\ _delete_s X dn self = (Raise INVALID_DN_SYNTAX, self)
  /\ (forall oldpw newpw,
         _passwd_s X dn oldpw newpw self = (Raise INVALID_DN_SYNTAX, self))
  /\ (forall newrdn newsuperior,
         _rename_s X dn newrdn newsuperior self = (Raise INVALID_DN_SYNTAX, self))
  /\ (forall old newsuperior,
         _rename_s X old dn newsuperior self = (Raise INVALID_DN_SYNTAX, self))
  /\ (forall old newrdn,
         dn <> "" -> str2dn_ok X old = true -> str2dn_ok X newrdn = true ->
         _rename_s X old newrdn (Some dn) self = (Raise INVALID_DN_SYNTAX, self)).
Proof.
  intros Hdn.
  assert (Hc : _check_valid_dn X dn = Raise INVALID_DN_SYNTAX)
    by (unfold _check_valid_dn; now rewrite Hdn).
  repeat split; intros.
  - unfold _compare_s. now rewrite Hc.
  - unfold _search_s. now rewrite Hc.
  - unfold _modify_s. now rewrite Hc.
  - unfold _add_s. now rewrite Hc.
  - unfold _delete_s. now rewrite Hc.
  - unfold _passwd_s. now rewrite Hc.
  - unfold _rename_s. now rewrite Hc.
  - unfold _rename_s. rewrite Hc. unfold _check_valid_dn.
    now destruct (str2dn_ok X old).
  - unfold _rename_s, _check_valid_dn. rewrite H0, H1.
    cbn [rbind truthy default]. rewrite bool_decide_eq_false_2 by assumption.
    cbn [negb]. unfold id. now rewrite Hdn.
Qed.

Lemma invalid_dn_rejected_witness :
  _delete_s Demo.X "alice" Demo.conn = (Raise INVALID_DN_SYNTAX, Demo.conn)
  /\ _modify_s Demo.X "alice" [] Demo.conn = (Raise INVALID_DN_SYNTAX, Demo.conn)
  /\ _add_s Demo.X "alice" [("cn", [Text "alice"])] Demo.conn
     = (Raise INVALID_DN_SYNTAX, Demo.conn).
Proof.
  destruct (invalid_dn_rejected Demo.X "alice" Demo.conn eq_refl)
    as (_ & _ & Hm & Ha & Hd & _).
  split; [exact Hd|]. split; [exact (Hm []) | exact (Ha _)].
Defined.

(** *** Add and delete *)

(** X10. [_add_s] checks the values before it looks the name up: a record
    in which some value is not a byte string raises [TypeError] and files
    nothing, also when the name is taken, where a well-typed record would
    raise [ALREADY_EXISTS]. *)
Theorem add_type_error_first (X : External) (dn : string)
    (record : list (string * list pyval)) (self : LDAPObject) :
  str2dn_ok X dn = true ->
  ~ well_typed record ->
  _add_s X dn record self = (Raise TypeError, self).
Proof.
  intros Hdn Hwt. unfold _add_s, _check_valid_dn. rewrite Hdn. cbn [rbind].
  assert (Hb : forall acc, build_entry record acc = Raise TypeError).
  { induction record as [|[attr values] rest IH]; intros acc.
    - exfalso. apply Hwt. constructor.
    - simpl. destruct (forallb is_bytes values) eqn:Hv; [|reflexivity].
      apply IH. intros Hrest. apply Hwt. now constructor. }
  now rewrite Hb.
Qed.

Lemma add_type_error_first_witness :
  _add_s Demo.X Demo.alice_dn [("cn", [Bytes "alice"]); ("sn", [Text "A"])] Demo.conn
  = (Raise TypeError, Demo.conn).
Proof.
  apply (add_type_error_first Demo.X Demo.alice_dn
           [("cn", [Bytes "alice"]); ("sn", [Text "A"])] Demo.conn eq_refl).
  intros H. apply Forall_cons in H as [_ H]. apply Forall_cons in H as [H _].
  discriminate H.
Defined.





(** *** Compare *)

Lemma in_decoded_decodable (X : External) (value : string) (values : list pyval) :
  decodable X values ->
  in_decoded X value values = Ok (bool_decide (Bytes value ∈ values)).
Proof.
  induction 1 as [|v values Hv _ IH]; cbn [in_decoded].
  - now rewrite bool_decide_eq_false_2 by apply not_elem_of_nil.
  - destruct v as [b|s]; [|contradiction]. cbn [decode]. rewrite Hv.
    cbn [rbind]. destruct (decide (b = value)) as [->|Hb].
    + rewrite (bool_decide_eq_true_2 (value = value)) by reflexivity.
      rewrite bool_decide_eq_true_2; [reflexivity | now left].
    + rewrite (bool_decide_eq_false_2 (b = value)) by exact Hb.
      rewrite IH. f_equal. apply bool_decide_ext. rewrite elem_of_cons.
      split; [now right | intros [[= ->]|H]; [congruence | exact H]].
Qed.

Lemma compare_password_plain (X : External) (password value : string) :
  scheme_tag value = None ->
  _compare_password X password value = Ok (bool_decide (value = password)).
Proof.
  unfold scheme_tag, _compare_password.
  now destruct (PASSWORD_RE_match value) as [[scheme raw]|].
Qed.

Lemma any_password_plain (X : External) (value : string) (values : list pyval) :
  decodable X values ->
  untagged values ->
  any_password X value values = Ok (bool_decide (Bytes value ∈ values)).
Proof.
  induction 1 as [|v values Hv _ IH]; intros Hu; cbn [any_password].
  - now rewrite bool_decide_eq_false_2 by apply not_elem_of_nil.
  - apply Forall_cons in Hu as [Hv' Hu].
    destruct v as [b|s]; [|contradiction]. cbn [decode]. rewrite Hv.
    cbn [rbind]. rewrite (compare_password_plain X value b Hv'). cbn [rbind].
    destruct (decide (b = value)) as [->|Hb].
    + rewrite (bool_decide_eq_true_2 (value = value)) by reflexivity.
      rewrite bool_decide_eq_true_2; [reflexivity | now left].
    + rewrite (bool_decide_eq_false_2 (b = value)) by exact Hb.
      rewrite (IH Hu). f_equal. apply bool_decide_ext. rewrite elem_of_cons.
      split; [now right | intros [[= ->]|H]; [congruence | exact H]].
Qed.

Lemma compare_s_decodable (X : External) (self : LDAPObject) (dn attr value : string)
    (entry : Entry) :
  str2dn_ok X dn = true ->
  cidict.getitem dn (directory self) = Some entry ->
  decodable X (default [] (entry !! attr)) ->
  (attr = "userPassword" -> untagged (default [] (entry !! attr))) ->
  _compare_s X self dn attr value
  = Ok (if bool_decide (Bytes value ∈ default [] (entry !! attr)) then 1 else 0).
Proof.
  intros Hdn He Hdec Hun.
  unfold _compare_s, _check_valid_dn. rewrite Hdn, He. cbn [rbind of_option].
  case_bool_decide as Hattr.
  - now rewrite (any_password_plain X value _ Hdec (Hun Hattr)).
  - now rewrite (in_decoded_decodable X value _ Hdec).
Qed.

(** X13. [_compare_s] on an entry the directory holds under a name that
    [str2dn] accepts, when the values of the attribute are byte strings in
    UTF-8: the answer is 1 if the value is among them and 0 if not; an
    attribute the entry lacks answers 0 and raises nothing. For
    [userPassword] this holds when no stored value opens with a scheme
    tag. *)
Theorem compare_values (X : External) (self : LDAPObject) (dn attr value : string)
    (entry : Entry) :
  str2dn_ok X dn = true ->
  cidict.getitem dn (directory self) = Some entry ->
  let values := default [] (entry !! attr) in
  decodable X values ->
  (attr = "userPassword" -> untagged values) ->
  _compare_s X self dn attr value
  = Ok (if bool_decide (Bytes value ∈ values) then 1 else 0)
  /\ (entry !! attr = None -> _compare_s X self dn attr value = Ok 0).
Proof.
  intros Hdn He values Hdec Hun.
  assert (Hrun : _compare_s X self dn attr value
                 = Ok (if bool_decide (Bytes value ∈ values) then 1 else 0))
    by exact (compare_s_decodable X self dn attr value entry Hdn He Hdec Hun).
  split; [exact Hrun|].
  intros Hnone. rewrite Hrun. subst values. rewrite Hnone. reflexivity.
Qed.

Lemma compare_values_witness :
  _compare_s Demo.X Demo.conn "CN=Alice,dc=example,dc=com" "cn" "al" = Ok 1
  /\ _compare_s Demo.X Demo.conn Demo.alice_dn "cn" "bob" = Ok 0
  /\ _compare_s Demo.X Demo.conn Demo.alice_dn "mail" "a@b" = Ok 0
  /\ _compare_s Demo.X Demo.conn Demo.alice_dn "userPassword" "alicepw" = Ok 1.
Proof.
  assert (Hd : forall attr, decodable Demo.X (default [] (Demo.alice !! attr))).
  { intros attr. unfold Demo.alice.
    destruct (decide (attr = "cn")) as [->|H1]; [repeat constructor|].
    rewrite lookup_insert_ne by congruence.
    destruct (decide (attr = "objectClass")) as [->|H2]; [repeat constructor|].
    rewrite lookup_insert_ne by congruence.
    destruct (decide (attr = "userPassword")) as [->|H3]; [repeat constructor|].
    rewrite lookup_singleton_ne by congruence. constructor. }
  split; [|split; [|split]].
  - rewrite (proj1 (compare_values Demo.X Demo.conn "CN=Alice,dc=example,dc=com"
                      "cn" "al" Demo.alice eq_refl eq_refl (Hd "cn")
                      ltac:(discriminate))).
    reflexivity.
  - rewrite (proj1 (compare_values Demo.X Demo.conn Demo.alice_dn
                      "cn" "bob" Demo.alice eq_refl eq_refl (Hd "cn")
                      ltac:(discriminate))).
    reflexivity.
  - apply (proj2 (compare_values Demo.X Demo.conn Demo.alice_dn
                    "mail" "a@b" Demo.alice eq_refl eq_refl (Hd "mail")
                    ltac:(discriminate))).
    reflexivity.
  - rewrite (proj1 (compare_values Demo.X Demo.conn Demo.alice_dn
                      "userPassword" "alicepw" Demo.alice eq_refl eq_refl
                      (Hd "userPassword") ltac:(intros _; repeat constructor))).
    reflexivity.
Defined.

(** *** The password verifier, and bind after a password change *)

Lemma re_scheme_app (scheme rest : string) :
  char_free "}" scheme = true ->
  char_free newline scheme = true ->
  re_scheme (scheme +:+ String "}" rest) = Some (scheme, rest).
Proof.
  induction scheme as [|c scheme IH]; simpl; [reflexivity|].
  intros Hb Hn. apply andb_true_iff in Hb as [Hc Hb].
  apply andb_true_iff in Hn as [Hc' Hn].
  apply negb_true_iff in Hc, Hc'. rewrite Hc, Hc'.
  now rewrite (IH Hb Hn).
Qed.

Lemma re_line_free (s : string) : char_free newline s = true -> re_line s = s.
Proof.
  induction s as [|c s IH]; simpl; [reflexivity|].
  intros H. apply andb_true_iff in H as [Hc H]. apply negb_true_iff in Hc.
  rewrite Hc. now rewrite (IH H).
Qed.

Lemma PASSWORD_RE_match_tagged (scheme rest : string) :
  char_free "}" scheme = true ->
  char_free newline scheme = true ->
  char_free newline rest = true ->
  PASSWORD_RE_match (String "{" (scheme +:+ String "}" rest)) = Some (scheme, rest).
Proof.
  intros Hb Hn Hr. simpl. rewrite (re_scheme_app scheme rest Hb Hn).
  now rewrite (re_line_free rest Hr).
Qed.

(** X14. [PASSWORD_RE] takes a tagged value apart: for a scheme with no
    closing brace and no newline in it and a rest with no newline, the
    groups of the match on [{scheme}rest] are the scheme and the rest. A
    value that does not open with a brace does not match. *)
Theorem password_re_groups (scheme rest : string) :
  char_free "}" scheme = true ->
  char_free newline scheme = true ->
  char_free newline rest = true ->
  PASSWORD_RE_match (String "{" (scheme +:+ String "}" rest)) = Some (scheme, rest)
  /\ (forall (c : ascii) (s : string),
         c <> "{"%char -> PASSWORD_RE_match (String c s) = None).
Proof.
  intros Hb Hn Hr. split.
  - now apply PASSWORD_RE_match_tagged.
  - intros c s Hc. simpl. now rewrite (proj2 (Ascii.eqb_neq _ _) Hc).
Qed.

Lemma password_re_groups_witness :
  PASSWORD_RE_match "{SSHA}c2VjcmV0" = Some ("SSHA", "c2VjcmV0")
  /\ PASSWORD_RE_match "secret" = None.
Proof.
  destruct (password_re_groups "SSHA" "c2VjcmV0" eq_refl eq_refl eq_refl)
    as [Hm Hno].
  split; [exact Hm | exact (Hno "s"%char "ecret" ltac:(discriminate))].
Defined.

Lemma str_take_app (a b : string) :
  Py.str_take (String.length a) (a +:+ b) = a.
Proof.
  unfold Py.str_take. induction a as [|c a IH]; simpl.
  - now destruct b.
  - now rewrite IH.
Qed.

Lemma substring_all (s : string) : String.substring 0 (String.length s) s = s.
Proof. induction s as [|c s IH]; simpl; [reflexivity | now rewrite IH]. Qed.

Lemma str_drop_app (a b : string) :
  Py.str_drop (String.length a) (a +:+ b) = b.
Proof.
  unfold Py.str_drop. induction a as [|c a IH]; simpl.
  - rewrite Nat.sub_0_r. apply substring_all.
  - exact IH.
Qed.

(** X15. The salted SHA-1 scheme. A stored value [{SSHA}raw], where [raw]
    has no newline and decodes from base64 to the twenty-byte digest of the
    password followed by the salt, followed by the salt, verifies the
    password. A [raw] that base64 cannot decode makes the verifier raise
    rather than answer no. *)
Theorem ssha_verifies (X : External) (password salt raw : string) :
  char_free newline raw = true ->
  (String.length (sha1 X (password +:+ salt)) = 20%nat ->
   b64decode X raw = Some (sha1 X (password +:+ salt) +:+ salt) ->
   _compare_password X password ("{SSHA}" +:+ raw) = Ok true)
  /\ (b64decode X raw = None ->
      _compare_password X password ("{SSHA}" +:+ raw) = Raise BinasciiError).
Proof.
  intros Hraw.
  assert (Hm : PASSWORD_RE_match ("{SSHA}" +:+ raw) = Some ("SSHA", raw)).
  { apply (PASSWORD_RE_match_tagged "SSHA" raw); [reflexivity | reflexivity | exact Hraw]. }
  unfold _compare_password, ssha_matches. rewrite Hm. simpl. split.
  - intros Hlen Hdec. rewrite Hdec. simpl. rewrite <- Hlen.
    rewrite str_drop_app, str_take_app.
    now rewrite bool_decide_eq_true_2.
  - now intros ->.
Qed.

Lemma ssha_verifies_witness :
  _compare_password Hashed.X "secret" "{SSHA}secretsalt..........salt" = Ok true
  /\ _compare_password Hashed.X "secret" "{SSHA}not!base64" = Raise BinasciiError.
Proof.
  split.
  - apply (proj1 (ssha_verifies Hashed.X "secret" "salt"
                    "secretsalt..........salt" eq_refl)); reflexivity.
  - apply (proj2 (ssha_verifies Hashed.X "secret" "salt" "not!base64" eq_refl)).
    reflexivity.
Defined.

(** X16. Where [crypt] could not be imported, a stored value tagged
    [{CRYPT}] verifies no password, and nothing is raised. *)
Theorem crypt_missing (X : External) (password value : string) :
  crypt X = None ->
  scheme_tag value = Some "CRYPT" ->
  _compare_password X password value = Ok false.
Proof.
  intros Hc. unfold scheme_tag, _compare_password.
  destruct (PASSWORD_RE_match value) as [[scheme raw]|]; [|discriminate].
  simpl. intros [= ->]. now rewrite Hc.
Qed.

Lemma crypt_missing_witness :
  _compare_password Demo.X "secret" "{CRYPT}abJnggxhB/yWI" = Ok false.
Proof.
  apply (crypt_missing Demo.X "secret" "{CRYPT}abJnggxhB/yWI"); reflexivity.
Defined.

(** X17. After a password change the new password binds and another does
    not. On an entry held under a name that [str2dn] accepts, once
    [_passwd_s] without an old password has set a byte string in UTF-8 that
    opens with no scheme tag, [simple_bind_s] with that name and that
    password returns [(97, [])] and binds the name, and with any other
    password raises [INVALID_CREDENTIALS]. *)
Theorem passwd_then_bind (X : External) (user newpw : string) (self : LDAPObject) :
  str2dn_ok X user = true ->
  is_Some (cidict.getitem user (directory self)) ->
  utf8_ok X newpw = true ->
  scheme_tag newpw = None ->
  let self' := snd (_passwd_s X user None (Bytes newpw) self) in
  simple_bind_s X user newpw self' = (Ok (97, []), set_bound_as (Some user) self')
  /\ (forall cred : string,
         cred <> newpw -> user <> "" ->
         simple_bind_s X user cred self'
         = (Raise (INVALID_CREDENTIALS (user +:+ ":" +:+ cred)), self')).
Proof.
  intros Hdn [entry He] Hutf Htag self'.
  assert (Hself : self' = mutate_entry user (<["userPassword" := [Bytes newpw]]> entry) self).
  { subst self'. unfold _passwd_s, _check_valid_dn. now rewrite Hdn, He. }
  assert (Hcmp : forall cred,
             _compare_s X self' user "userPassword" cred
             = Ok (if bool_decide (Bytes cred ∈ [Bytes newpw]) then 1 else 0)).
  { intros cred.
    rewrite (compare_s_decodable X self' user "userPassword" cred
               (<["userPassword" := [Bytes newpw]]> entry) Hdn).
    - now rewrite lookup_insert_eq.
    - rewrite Hself. exact (getitem_mutate_same user entry _ self He).
    - rewrite lookup_insert_eq. simpl. constructor; [exact Hutf | constructor].
    - intros _. rewrite lookup_insert_eq. simpl. constructor; [exact Htag | constructor]. }
  split.
  - unfold simple_bind_s. rewrite Hcmp.
    rewrite (bool_decide_eq_true_2 (Bytes newpw ∈ [Bytes newpw]))
      by (apply list_elem_of_singleton; reflexivity).
    now destruct (bool_decide (user = "") && bool_decide (newpw = "")).
  - intros cred Hne Huser. unfold simple_bind_s. rewrite Hcmp.
    rewrite (bool_decide_eq_false_2 (user = "")) by exact Huser.
    rewrite (bool_decide_eq_false_2 (Bytes cred ∈ [Bytes newpw])); [reflexivity|].
    intros Hin. apply list_elem_of_singleton in Hin. congruence.
Qed.

Lemma passwd_then_bind_witness :
  let self' := snd (_passwd_s Demo.X Demo.alice_dn None (Bytes "s3cret") Demo.conn) in
  fst (simple_bind_s Demo.X Demo.alice_dn "s3cret" self') = Ok (97, [])
  /\ fst (simple_bind_s Demo.X Demo.alice_dn "alicepw" self')
     = Raise (INVALID_CREDENTIALS "cn=alice,dc=example,dc=com:alicepw").
Proof.
  intros self'.
  destruct (passwd_then_bind Demo.X Demo.alice_dn "s3cret" Demo.conn eq_refl
              ltac:(eexists; reflexivity) eq_refl eq_refl) as [Hnew Hold].
  fold self' in Hnew, Hold. split.
  - now rewrite Hnew.
  - rewrite (Hold "alicepw"); [reflexivity | discriminate | discriminate].
Defined.

(** *** The session *)

(** X18. Binding and the bound name. After a [simple_bind_s] that returns,
    [whoami_s] gives [dn:] followed by the name bound, the empty name for an
    anonymous bind; a [simple_bind_s] that raises leaves the name bound
    before; after [unbind] or [unbind_s], and on a new object, [whoami_s]
    raises a [TypeError]. None of them touches the directory. *)
Theorem bind_whoami_unbind (X : External) (who cred : string) (self : LDAPObject) :
  let out := simple_bind_s X who cred self in
  (forall r, fst out = Ok r -> whoami_s (snd out) = Ok ("dn:" +:+ who))
  /\ (forall e, fst out = Raise e -> snd out = self)
  /\ whoami_s (unbind (snd out)) = Raise TypeError
  /\ whoami_s (unbind_s (snd out)) = Raise TypeError
  /\ (forall seed, whoami_s (init seed) = Raise TypeError)
  /\ directory (snd out) = directory self
  /\ directory (unbind self) = directory self.
Proof.
  intros out. subst out. unfold simple_bind_s.
  destruct (bool_decide (who = "") && bool_decide (cred = "")).
  { repeat split; intros; discriminate. }
  destruct (_compare_s X self who "userPassword" cred) as [r|e].
  - destruct (negb (r =? 0)); repeat split; intros; discriminate.
  - destruct e; repeat split; intros; discriminate.
Qed.

Lemma bind_whoami_unbind_witness :
  whoami_s (snd (simple_bind_s Demo.X Demo.alice_dn "alicepw" Demo.conn))
  = Ok "dn:cn=alice,dc=example,dc=com".
Proof.
  apply (proj1 (bind_whoami_unbind Demo.X Demo.alice_dn "alicepw" Demo.conn)
           (97, [])).
  vm_compute. reflexivity.
Defined.

(** X19. Options. [get_option] returns what the last [set_option] on that
    option stored, is not affected by a [set_option] on another option, and
    raises [KeyError] for an option never set, as on a new object. *)
Theorem options_round_trip (option other invalue : Z) (self : LDAPObject) :
  get_option option (set_option option invalue self) = Ok invalue
  /\ (other <> option ->
      get_option other (set_option option invalue self) = get_option other self)
  /\ (forall seed, get_option option (init seed) = Raise KeyError)
  /\ directory (set_option option invalue self) = directory self.
Proof.
  unfold get_option, set_option. simpl. repeat split.
  - now rewrite lookup_insert_eq.
  - intros Hne. now rewrite lookup_insert_ne by congruence.
Qed.

Lemma options_round_trip_witness :
  get_option 17 (set_option 24 1 (set_option 17 3 (init ∅))) = Ok 3.
Proof.
  rewrite (proj1 (proj2 (options_round_trip 24 17 1 (set_option 17 3 (init ∅))))
             ltac:(discriminate)).
  exact (proj1 (options_round_trip 17 0 3 (init ∅))).
Defined.

(** *** The queue of results *)

(** X20. Message ids. The id that [search] returns is the number of results
    queued before it, so searches that return get consecutive ids; and no
    call ever shortens the queue, so an id is never given out twice. *)
Theorem msgids_consecutive (X : External) (self : LDAPObject) :
  (forall base scope filterstr attrlist attrsonly msgid self',
      search X base scope filterstr attrlist attrsonly self = (Ok msgid, self') ->
      msgid = Z.of_nat (length (async_results self))
      /\ length (async_results self') = S (length (async_results self))
      /\ directory self' = directory self)
  /\ (forall calls : list call,
         (length (async_results self)
          <= length (async_results (run_all X calls self)))%nat).
Proof.
  split.
  - intros base scope filterstr attrlist attrsonly msgid self'. unfold search.
    destruct (_search_s X self base scope filterstr attrlist attrsonly);
      [|discriminate].
    unfold _add_async_result. intros [= <- <-]. simpl.
    rewrite length_app. simpl. repeat split; lia.
  - intros calls. revert self.
    induction calls as [|c calls IH]; intros self; simpl; [lia|].
    etransitivity; [|apply IH]. rewrite run_async_results.
    destruct c; try lia.
    + destruct (_search_s X (recorded self) base scope filterstr attrlist attrsonly);
        [|lia].
      rewrite length_app. simpl. lia.
    + destruct ((0 <=? msgid) && (msgid <? Z.of_nat (length (async_results self))));
        [|lia].
      rewrite length_insert. lia.
Qed.

Lemma msgids_consecutive_witness :
  exists self' : LDAPObject,
    search Demo.X "dc=example,dc=com" 0 "(objectClass=*)" None false Demo.issued
    = (Ok 1, self')
    /\ length (async_results self') = 2%nat.
Proof.
  assert (Hs : search Demo.X "dc=example,dc=com" 0 "(objectClass=*)" None false
                 Demo.issued
               = (Ok 1, snd (search Demo.X "dc=example,dc=com" 0 "(objectClass=*)"
                               None false Demo.issued)))
    by (vm_compute; reflexivity).
  destruct (proj1 (msgids_consecutive Demo.X Demo.issued) _ _ _ _ _ _ _ Hs)
    as (_ & Hlen & _).
  eexists. split; [exact Hs|]. rewrite Hlen. vm_compute. reflexivity.
Defined.

(** *** Search *)

Lemma mapM_elem {A B} (f : A -> result B) (l : list A) (bs : list B) :
  mapM f l = Ok bs ->
  forall b, b ∈ bs -> exists a, a ∈ l /\ f a = Ok b.
Proof.
  revert bs. induction l as [|a l IH]; intros bs; simpl.
  - intros [= <-] b Hb. now apply elem_of_nil in Hb.
  - destruct (f a) as [b0|] eqn:Hfa; [|discriminate]. simpl.
    destruct (mapM f l) as [bs0|]; [|discriminate]. simpl.
    intros [= <-] b Hb. apply elem_of_cons in Hb as [->|Hb].
    + exists a. split; [now left | exact Hfa].
    + destruct (IH bs0 eq_refl b Hb) as (a' & Ha' & Hf).
      exists a'. split; [now right | exact Hf].
Qed.

Lemma mapM_complete {A B} (f : A -> result B) (l : list A) (bs : list B) :
  mapM f l = Ok bs ->
  forall a b, a ∈ l -> f a = Ok b -> b ∈ bs.
Proof.
  revert bs. induction l as [|a0 l IH]; intros bs; simpl.
  - intros _ a b Ha. now apply elem_of_nil in Ha.
  - destruct (f a0) as [b0|] eqn:Hfa; [|discriminate]. simpl.
    destruct (mapM f l) as [bs0|]; [|discriminate]. simpl.
    intros [= <-] a b Ha Hf. apply elem_of_cons in Ha as [->|Ha].
    + rewrite Hfa in Hf. injection Hf as ->. now left.
    + right. exact (IH bs0 eq_refl a b Ha Hf).
Qed.

Lemma mapM_total {A B} (f : A -> result B) (l : list A) :
  (forall a, a ∈ l -> exists b, f a = Ok b) -> exists bs, mapM f l = Ok bs.
Proof.
  induction l as [|a l IH]; intros Hall; simpl; [now eexists|].
  destruct (Hall a ltac:(now left)) as [b ->]. simpl.
  destruct IH as [bs ->]; [intros a' Ha'; apply Hall; now right|].
  simpl. now eexists.
Qed.

Lemma matching_elem (X : External) (self : LDAPObject) (f : filter_expr X)
    (dns : list string) (res : SearchResult) :
  matching X self f dns = Ok res ->
  forall dn attrs, (dn, attrs) ∈ res <->
    dn ∈ dns /\ cidict.getitem dn (directory self) = Some attrs
    /\ matches X f dn attrs = Ok true.
Proof.
  revert res. induction dns as [|dn0 dns IH]; intros res; simpl.
  - intros [= <-] dn attrs. rewrite !elem_of_nil. tauto.
  - destruct (cidict.getitem dn0 (directory self)) as [attrs0|] eqn:He;
      [|discriminate]. simpl.
    destruct (matches X f dn0 attrs0) as [m|] eqn:Hm; [|discriminate]. simpl.
    destruct (matching X self f dns) as [more|]; [|discriminate]. simpl.
    intros [= <-] dn attrs. specialize (IH more eq_refl dn attrs).
    rewrite elem_of_cons. destruct m.
    + rewrite elem_of_cons, IH. split.
      * intros [[= -> ->]|(Hin & Hg & Hmt)]; [now repeat split; try left|].
        repeat split; [now right | exact Hg | exact Hmt].
      * intros ([->|Hin] & Hg & Hmt).
        -- left. rewrite He in Hg. now injection Hg as ->.
        -- right. now repeat split.
    + rewrite IH. split.
      * intros (Hin & Hg & Hmt). repeat split; [now right | exact Hg | exact Hmt].
      * intros ([->|Hin] & Hg & Hmt); [|now repeat split].
        rewrite He in Hg. injection Hg as ->. rewrite Hm in Hmt. discriminate.
Qed.

Lemma search_s_inv (X : External) (self : LDAPObject) (base : string) (scope : Z)
    (filterstr : string) (attrlist : option (list string)) (attrsonly : bool)
    (res : SearchResult) :
  _search_s X self base scope filterstr attrlist attrsonly = Ok res ->
  exists base_parts dn_parts test f results,
    str2dn_ok X base = true
    /\ cidict.contains base (directory self) = true
    /\ explode_dn X (Py.lower base) = Some base_parts
    /\ mapM (fun dn =>
               let! parts := of_option DECODING_ERROR (explode_dn X (Py.lower dn)) in
               Ok (dn, parts)) (cidict.keys (directory self)) = Ok dn_parts
    /\ scope_test scope base_parts = Ok test
    /\ parse X filterstr = Parsed f
    /\ matching X self f (fst <$> filter (fun dp => test (snd dp) = true) dn_parts)
       = Ok results
    /\ res = (fun r => (fst r, strip attrsonly (project attrlist (snd r)))) <$> results.
Proof.
  unfold _search_s, _check_valid_dn.
  destruct (str2dn_ok X base) eqn:Hdn; [|discriminate]. cbn [rbind].
  destruct (cidict.contains base (directory self)) eqn:Hc; [|discriminate].
  cbn [negb].
  destruct (explode_dn X (Py.lower base)) as [base_parts|] eqn:Hb; [|discriminate].
  cbn [rbind of_option].
  destruct (mapM _ (cidict.keys (directory self))) as [dn_parts|] eqn:Hparts;
    [|discriminate]. cbn [rbind].
  destruct (scope_test scope base_parts) as [test|] eqn:Ht; [|discriminate].
  cbn [rbind]. unfold parse_filter.
  destruct (parse X filterstr) as [f| |] eqn:Hf; [|discriminate|discriminate].
  cbn [rbind].
  destruct (matching X self f _) as [results|] eqn:Hres; [|discriminate].
  cbn [rbind]. intros [= <-].
  exists base_parts, dn_parts, test, f, results.
  repeat split; first [reflexivity | assumption].
Qed.

(** X21. What a search that returns has found. The pairs of the result are
    exactly these: a key of the directory, as it is spelled there, whose
    exploded lower-cased form passes the test of the scope against that of
    the base, and whose entry the parsed filter matches; with it, the entry
    restricted to the attribute list, if one is given, and with its value
    lists emptied, if values are not wanted. *)
Theorem search_results (X : External) (self : LDAPObject) (base : string)
    (scope : Z) (filterstr : string) (attrlist : option (list string))
    (attrsonly : bool) (res : SearchResult) :
  _search_s X self base scope filterstr attrlist attrsonly = Ok res ->
  exists (base_parts : list string) (test : list string -> bool) (f : filter_expr X),
    explode_dn X (Py.lower base) = Some base_parts
    /\ scope_test scope base_parts = Ok test
    /\ parse X filterstr = Parsed f
    /\ forall (dn : string) (found : Entry),
         (dn, found) ∈ res <->
         exists (attrs : Entry) (parts : list string),
           found = strip attrsonly (project attrlist attrs)
           /\ dn ∈ cidict.keys (directory self)
           /\ explode_dn X (Py.lower dn) = Some parts
           /\ test parts = true
           /\ cidict.getitem dn (directory self) = Some attrs
           /\ matches X f dn attrs = Ok true.
Proof.
  intros Hs.
  destruct (search_s_inv X self base scope filterstr attrlist attrsonly res Hs)
    as (base_parts & dn_parts & test & f & results
        & _ & _ & Hb & Hparts & Ht & Hf & Hm & ->).
  exists base_parts, test, f. repeat split; try assumption.
  - intros Hin. apply list_elem_of_fmap in Hin as ([dn0 attrs] & [= -> ->] & Hin).
    apply (matching_elem X self f _ results Hm) in Hin as (Hdn & Hg & Hmt).
    apply list_elem_of_fmap in Hdn as ([dn1 parts] & Heq & Hdp). simpl in Heq.
    subst dn1. apply list_elem_of_filter in Hdp as [Htest Hdp]. simpl in Htest.
    destruct (mapM_elem _ _ _ Hparts _ Hdp) as (key & Hkey & Hex).
    destruct (explode_dn X (Py.lower key)) as [p|] eqn:Hp; [|discriminate].
    simpl in Hex. injection Hex as -> ->.
    exists attrs, parts. repeat split; assumption.
  - intros (attrs & parts & -> & Hkey & Hp & Htest & Hg & Hmt).
    apply list_elem_of_fmap. exists (dn, attrs). split; [reflexivity|].
    apply (matching_elem X self f _ results Hm). repeat split; try assumption.
    apply list_elem_of_fmap. exists (dn, parts). split; [reflexivity|].
    apply list_elem_of_filter. split; [exact Htest|].
    apply (mapM_complete _ _ _ Hparts dn); [exact Hkey|].
    now rewrite Hp.
Qed.

Lemma search_results_witness :
  exists res : SearchResult,
    _search_s Demo.X Demo.conn "DC=Example,DC=Com" 1 "(objectClass=*)" None false
    = Ok res
    /\ (Demo.alice_dn, Demo.alice) ∈ res
    /\ ("dc=example,dc=com", {[ "objectClass" := [Bytes "domain"] ]}) ∉ res.
Proof.
  assert (Hex : exists res,
             _search_s Demo.X Demo.conn "DC=Example,DC=Com" 1 "(objectClass=*)"
               None false = Ok res)
    by (vm_compute; eexists; reflexivity).
  destruct Hex as [res Hs]. exists res. split; [exact Hs|].
  destruct (search_results Demo.X Demo.conn "DC=Example,DC=Com" 1 "(objectClass=*)"
              None false res Hs) as (base_parts & test & f & Hb & Ht & _ & Hres).
  vm_compute in Hb. injection Hb as <-.
  unfold scope_test in Ht. simpl in Ht. injection Ht as <-.
  split.
  - apply Hres. exists Demo.alice, ["cn=alice"; "dc=example"; "dc=com"].
    repeat split; try reflexivity.
    apply list_elem_of_In. vm_compute. tauto.
  - intros Hin. apply Hres in Hin as (attrs & parts & _ & _ & Hp & Htest & _).
    vm_compute in Hp. injection Hp as <-. discriminate Htest.
Defined.

(** X22. The two projections of a search that returns. Under an attribute
    list every attribute of every entry found is in the list. When values
    are not wanted every attribute found has the empty list, which no
    stored entry need have. With neither, the entries found are the
    directory's own. *)
Theorem search_projection (X : External) (self : LDAPObject) (base : string)
    (scope : Z) (filterstr : string) (attrlist : option (list string))
    (attrsonly : bool) (res : SearchResult) (dn : string) (found : Entry) :
  _search_s X self base scope filterstr attrlist attrsonly = Ok res ->
  (dn, found) ∈ res ->
  (forall l attr, attrlist = Some l -> is_Some (found !! attr) -> attr ∈ l)
  /\ (attrsonly = true -> forall attr values, found !! attr = Some values -> values = [])
  /\ (attrlist = None -> attrsonly = false ->
      cidict.getitem dn (directory self) = Some found).
Proof.
  intros Hs Hin.
  destruct (search_s_inv X self base scope filterstr attrlist attrsonly res Hs)
    as (base_parts & dn_parts & test & f & results
        & _ & _ & _ & _ & _ & _ & Hm & ->).
  apply list_elem_of_fmap in Hin as ([dn0 attrs] & [= -> ->] & Hin).
  apply (matching_elem X self f _ results Hm) in Hin as (_ & Hg & _).
  simpl. split; [|split].
  - intros l attr -> [values Hv]. unfold strip, project in Hv.
    assert (Hf : is_Some (filter (fun kv : string * list pyval => fst kv ∈ l) attrs !! attr)).
    { destruct attrsonly; [|eauto]. rewrite lookup_fmap in Hv.
      destruct (filter _ attrs !! attr); [eauto | discriminate]. }
    destruct Hf as [vs Hf]. apply map_lookup_filter_Some in Hf as [_ Hl].
    exact Hl.
  - intros -> attr values Hv. unfold strip in Hv. rewrite lookup_fmap in Hv.
    destruct (project attrlist attrs !! attr); [|discriminate].
    now injection Hv as <-.
  - now intros -> ->.
Qed.

Lemma search_projection_witness :
  exists res : SearchResult,
    _search_s Demo.X Demo.conn Demo.alice_dn 0 "(objectClass=*)" (Some ["cn"]) true
    = Ok res
    /\ forall found, (Demo.alice_dn, found) ∈ res ->
         found !! "userPassword" = None
         /\ forall values, found !! "cn" = Some values -> values = [].
Proof.
  assert (Hex : exists res,
             _search_s Demo.X Demo.conn Demo.alice_dn 0 "(objectClass=*)"
               (Some ["cn"]) true = Ok res)
    by (vm_compute; eexists; reflexivity).
  destruct Hex as [res Hs]. exists res. split; [exact Hs|].
  intros found Hin.
  destruct (search_projection Demo.X Demo.conn Demo.alice_dn 0 "(objectClass=*)"
              (Some ["cn"]) true res Demo.alice_dn found Hs Hin)
    as (Hlist & Hvals & _).
  split.
  - destruct (found !! "userPassword") eqn:Hp; [|reflexivity].
    specialize (Hlist ["cn"] "userPassword" eq_refl ltac:(rewrite Hp; eauto)).
    apply list_elem_of_singleton in Hlist. discriminate Hlist.
  - intros values Hv. exact (Hvals eq_refl "cn" values Hv).
Defined.

(** X23. The order of the failures of a search past the lookup of the base.
    With a base that is present and names that [explode_dn] accepts, for
    the base and for every key of the directory:
    - a scope that is none of the three raises [ValueError], whatever the
      filter, supported or not;
    - with one of the three scopes, a filter that [parse] does not support
      raises [SeedRequired], and another failure of [parse] is passed on. *)
Theorem search_failures (X : External) (self : LDAPObject) (base : string)
    (scope : Z) (filterstr : string) (attrlist : option (list string))
    (attrsonly : bool) :
  str2dn_ok X base = true ->
  cidict.contains base (directory self) = true ->
  is_Some (explode_dn X (Py.lower base)) ->
  (forall dn, dn ∈ cidict.keys (directory self) ->
              is_Some (explode_dn X (Py.lower dn))) ->
  (scope <> SCOPE_BASE -> scope <> SCOPE_ONELEVEL -> scope <> SCOPE_SUBTREE ->
   _search_s X self base scope filterstr attrlist attrsonly = Raise ValueError)
  /\ (scope = SCOPE_BASE \/ scope = SCOPE_ONELEVEL \/ scope = SCOPE_SUBTREE ->
      (parse X filterstr = UnsupportedOp ->
       _search_s X self base scope filterstr attrlist attrsonly = Raise SeedRequired)
      /\ (forall e, parse X filterstr = ParseFailure e ->
                    _search_s X self base scope filterstr attrlist attrsonly = Raise e)).
Proof.
  intros Hdn Hc [base_parts Hb] Hkeys.
  destruct (mapM_total
              (fun dn =>
                 let! parts := of_option DECODING_ERROR (explode_dn X (Py.lower dn)) in
                 Ok (dn, parts)) (cidict.keys (directory self)))
    as [dn_parts Hparts].
  { intros dn Hin. destruct (Hkeys dn Hin) as [parts ->]. now eexists. }
  unfold _search_s, _check_valid_dn. rewrite Hdn, Hc, Hb. cbn [rbind negb of_option].
  rewrite Hparts. cbn [rbind]. split.
  - intros H0 H1 H2. unfold scope_test.
    now rewrite (proj2 (Z.eqb_neq _ _) H0), (proj2 (Z.eqb_neq _ _) H1),
      (proj2 (Z.eqb_neq _ _) H2).
  - intros Hscope.
    assert (Ht : exists test, scope_test scope base_parts = Ok test).
    { unfold scope_test. destruct Hscope as [-> | [-> | ->]]; simpl; now eexists. }
    destruct Ht as [test ->]. cbn [rbind]. unfold parse_filter. split.
    + now intros ->.
    + now intros e ->.
Qed.

Lemma search_failures_witness :
  _search_s Demo.X Demo.conn Demo.alice_dn 3 "(cn~=al)" None false = Raise ValueError
  /\ _search_s Demo.X Demo.conn Demo.alice_dn 2 "(cn~=al)" None false
     = Raise SeedRequired.
Proof.
  assert (Hkeys : forall dn, dn ∈ cidict.keys (directory Demo.conn) ->
                             is_Some (explode_dn Demo.X (Py.lower dn))).
  { assert (Hk : cidict.keys (directory Demo.conn)
                 = [Demo.alice_dn; "dc=example,dc=com"]) by (vm_compute; reflexivity).
    intros dn Hin. rewrite Hk in Hin.
    apply elem_of_cons in Hin as [->|Hin]; [vm_compute; eauto|].
    apply list_elem_of_singleton in Hin as ->. vm_compute; eauto. }
  assert (Hc : cidict.contains Demo.alice_dn (directory Demo.conn) = true)
    by (vm_compute; reflexivity).
  assert (Hb : is_Some (explode_dn Demo.X (Py.lower Demo.alice_dn)))
    by (vm_compute; eauto).
  split.
  - apply (proj1 (search_failures Demo.X Demo.conn Demo.alice_dn 3 "(cn~=al)" None
                    false eq_refl Hc Hb Hkeys));
      discriminate.
  - destruct (proj2 (search_failures Demo.X Demo.conn Demo.alice_dn 2 "(cn~=al)"
                       None false eq_refl Hc Hb Hkeys)
                (or_intror (or_intror eq_refl))) as [Hunsupported _].
    exact (Hunsupported eq_refl).
Defined.

Lemma last_slice_app {A} (pre l : list A) :
  l <> [] -> Py.last_slice (length l) (pre ++ l)%list = l.
Proof.
  intros Hl. unfold Py.last_slice. destruct l as [|a l]; [congruence|].
  cbn [length]. rewrite length_app. cbn [length].
  replace (length pre + S (length l) - S (length l))%nat with (length pre) by lia.
  apply drop_app_length.
Qed.

Lemma last_slice_suffix {A} (n : nat) (l : list A) : Py.last_slice n l `suffix_of` l.
Proof.
  unfold Py.last_slice. destruct n; [reflexivity|]. apply suffix_drop.
Qed.

(** X24. The three scopes, as tests on exploded names. Against a base of at
    least one component: the scope of the base passes the base alone; that
    of one level passes exactly the names that are one component followed
    by the base, so not the base itself; that of the subtree passes exactly
    the names that end with the base, the base among them. *)
Theorem scope_relations (base_parts parts : list string) :
  base_parts <> [] ->
  exists tb t1 ts : list string -> bool,
    scope_test SCOPE_BASE base_parts = Ok tb
    /\ scope_test SCOPE_ONELEVEL base_parts = Ok t1
    /\ scope_test SCOPE_SUBTREE base_parts = Ok ts
    /\ (tb parts = true <-> parts = base_parts)
    /\ (t1 parts = true <-> exists rdn, parts = rdn :: base_parts)
    /\ (ts parts = true <-> base_parts `suffix_of` parts)
    /\ t1 base_parts = false
    /\ ts base_parts = true.
Proof.
  intros Hne. unfold scope_test. simpl.
  eexists _, _, _. split; [reflexivity|]. split; [reflexivity|].
  split; [reflexivity|]. cbv beta.
  rewrite !bool_decide_eq_true. split; [reflexivity|]. split; [|split; [|split]].
  - unfold Py.tail_slice. split.
    + intros Ht. destruct parts as [|rdn rest].
      * simpl in Ht. congruence.
      * exists rdn. simpl in Ht. rewrite drop_0 in Ht. now subst.
    + intros [rdn ->]. reflexivity.
  - split.
    + intros <-. apply last_slice_suffix.
    + intros [pre ->]. now apply last_slice_app.
  - apply bool_decide_eq_false_2. unfold Py.tail_slice. intros H.
    apply (f_equal length) in H. rewrite length_drop in H.
    destruct base_parts; [congruence | simpl in H; lia].
  - exact (last_slice_app [] base_parts Hne).
Qed.

Lemma scope_relations_witness :
  exists ts : list string -> bool,
    scope_test SCOPE_SUBTREE ["dc=example"; "dc=com"] = Ok ts
    /\ ts ["cn=alice"; "ou=people"; "dc=example"; "dc=com"] = true.
Proof.
  destruct (scope_relations ["dc=example"; "dc=com"]
              ["cn=alice"; "ou=people"; "dc=example"; "dc=com"] ltac:(discriminate))
    as (tb & t1 & ts & _ & _ & Hs & _ & _ & Hsub & _).
  exists ts. split; [exact Hs|]. apply Hsub.
  exists ["cn=alice"; "ou=people"]. reflexivity.
Defined.



(** *** Rename *)














Lemma remove_None {A} `{EqDecision A} (x : A) (l : list A) :
  x ∉ l -> Py.remove x l = None.
Proof.
  induction l as [|y l IH]; simpl; [reflexivity|].
  intros Hnot. apply not_elem_of_cons in Hnot as [Hne Hnot].
  destruct (decide (y = x)); [congruence|]. now rewrite (IH Hnot).
Qed.

(** X28. The failures of a rename, in the order in which they are met,
    for names that [str2dn] accepts. A name the directory lacks raises
    [NO_SUCH_OBJECT]. A new full name that is taken raises
    [ALREADY_EXISTS], however the relative names are made. With the new
    name free: a first component of the old name, or a new relative name,
    that is not one [attr=value] raises [ValueError]; an entry without the
    old naming attribute raises [KeyError]; an old naming value that is not
    among the values of that attribute raises [ValueError] when the
    attribute is kept, that is when the naming attribute stays the same or
    has more than one value. In each case the object is as it was. *)
Theorem rename_failures (X : External) (dn newrdn : string)
    (newsuperior : option string) (self : LDAPObject) :
  str2dn_ok X dn = true ->
  str2dn_ok X newrdn = true ->
  (truthy newsuperior = true -> str2dn_ok X (default "" newsuperior) = true) ->
  let target := rename_target dn newrdn newsuperior in
  let run := _rename_s X dn newrdn newsuperior self in
  (cidict.getitem dn (directory self) = None -> run = (Raise NO_SUCH_OBJECT, self))
  /\ (forall entry : Entry,
         cidict.getitem dn (directory self) = Some entry ->
         (cidict.contains target (directory self) = true ->
          run = (Raise ALREADY_EXISTS, self))
         /\ (cidict.contains target (directory self) = false ->
             (unpack2 (Py.split "=" (head_or_empty (Py.split "," dn))) = Raise ValueError
              -> run = (Raise ValueError, self))
             /\ (forall oldattr oldvalue,
                    Py.split "=" (head_or_empty (Py.split "," dn)) = [oldattr; oldvalue] ->
                    (unpack2 (Py.split "=" newrdn) = Raise ValueError ->
                     run = (Raise ValueError, self))
                    /\ (forall newattr newvalue,
                           Py.split "=" newrdn = [newattr; newvalue] ->
                           (entry !! oldattr = None -> run = (Raise KeyError, self))
                           /\ (forall old,
                                  entry !! oldattr = Some old ->
                                  Bytes oldvalue ∉ old ->
                                  oldattr = newattr \/ (1 < length old)%nat ->
                                  run = (Raise ValueError, self)))))).
Proof.
  intros Hdn Hnew Hsup target run. subst run target.
  unfold _rename_s, rename_target, _check_valid_dn. rewrite Hdn, Hnew. cbn [rbind].
  assert (Hs : (if truthy newsuperior
                then if str2dn_ok X (default "" newsuperior) then Ok tt
                     else Raise INVALID_DN_SYNTAX
                else Ok tt) = Ok tt).
  { destruct (truthy newsuperior); [|reflexivity]. now rewrite Hsup. }
  rewrite Hs. cbn [rbind]. split.
  - now intros ->.
  - intros entry ->. cbn [rbind of_option]. split.
    + now intros ->.
    + intros ->. split.
      * now intros ->.
      * intros oldattr oldvalue ->. cbn [unpack2 rbind]. split.
        -- now intros ->.
        -- intros newattr newvalue ->. cbn [unpack2 rbind]. unfold drop_old. split.
           ++ intros ->. cbn [rbind of_option]. now case_bool_decide.
           ++ intros old -> Hnot Hkept. cbn [rbind of_option].
              rewrite (remove_None (Bytes oldvalue) old Hnot). cbn [rbind of_option].
              destruct Hkept as [->|Hlen].
              ** now rewrite bool_decide_eq_true_2.
              ** apply Nat.ltb_lt in Hlen. rewrite Hlen. now case_bool_decide.
Qed.

Lemma rename_failures_witness :
  _rename_s Demo.X "dc=example,dc=com" "dc=sample" None Demo.conn
  = (Raise KeyError, Demo.conn)
  /\ _rename_s Demo.X "cn=ALICE,dc=example,dc=com" "cn=alicia" None Demo.conn
     = (Raise ValueError, Demo.conn).
Proof.
  split.
  - pose proof (rename_failures Demo.X "dc=example,dc=com" "dc=sample" None
                  Demo.conn eq_refl eq_refl ltac:(discriminate)) as H.
    cbv zeta in H. destruct H as [_ H].
    destruct (H {[ "objectClass" := [Bytes "domain"] ]} eq_refl) as [_ H1].
    destruct (H1 ltac:(vm_compute; reflexivity)) as [_ H2].
    destruct (H2 "dc" "example" eq_refl) as [_ H3].
    destruct (H3 "dc" "sample" eq_refl) as [H4 _].
    exact (H4 eq_refl).
  - pose proof (rename_failures Demo.X "cn=ALICE,dc=example,dc=com" "cn=alicia" None
                  Demo.conn eq_refl eq_refl ltac:(discriminate)) as H.
    cbv zeta in H. destruct H as [_ H].
    destruct (H Demo.alice eq_refl) as [_ H1].
    destruct (H1 ltac:(vm_compute; reflexivity)) as [_ H2].
    destruct (H2 "cn" "ALICE" eq_refl) as [_ H3].
    destruct (H3 "cn" "alicia" eq_refl) as [_ H4].
    apply (H4 [Bytes "alice"; Bytes "al"] eq_refl); [|now left].
    intros Hin. apply elem_of_cons in Hin as [Hin|Hin]; [discriminate Hin|].
    apply list_elem_of_singleton in Hin. discriminate Hin.
Defined.

(** *** Password change and bind, further *)



(** X30. Bind against stored passwords. For a non-empty name that [str2dn]
    accepts and the directory holds, whose [userPassword] values are byte
    strings in UTF-8 with no scheme tag, [simple_bind_s] returns [(97, [])]
    and binds the name if the credential is one of the stored values, any
    one of them, and raises [INVALID_CREDENTIALS] with nothing changed if
    it is none; so it does when the entry has no [userPassword] at all. *)
Theorem bind_with_stored_password (X : External) (who cred : string)
    (entry : Entry) (self : LDAPObject) :
  who <> "" ->
  str2dn_ok X who = true ->
  cidict.getitem who (directory self) = Some entry ->
  let values := default [] (entry !! "userPassword") in
  decodable X values ->
  untagged values ->
  (Bytes cred ∈ values ->
   simple_bind_s X who cred self = (Ok (97, []), set_bound_as (Some who) self))
  /\ (Bytes cred ∉ values ->
      simple_bind_s X who cred self
      = (Raise (INVALID_CREDENTIALS (who +:+ ":" +:+ cred)), self)).
Proof.
  intros Hwho Hdn He values Hdec Hun.
  unfold simple_bind_s.
  rewrite (bool_decide_eq_false_2 (who = "")) by exact Hwho. cbn [andb].
  rewrite (compare_s_decodable X self who "userPassword" cred entry Hdn He Hdec
             (fun _ => Hun)).
  fold values. split; intros Hin.
  - now rewrite bool_decide_eq_true_2.
  - now rewrite bool_decide_eq_false_2.
Qed.

Lemma bind_with_stored_password_witness :
  bound_as (snd (simple_bind_s Demo.X "CN=Alice,dc=example,dc=com" "alicepw" Demo.conn))
  = Some "CN=Alice,dc=example,dc=com"
  /\ fst (simple_bind_s Demo.X "dc=example,dc=com" "alicepw" Demo.conn)
     = Raise (INVALID_CREDENTIALS "dc=example,dc=com:alicepw").
Proof.
  split.
  - rewrite (proj1 (bind_with_stored_password Demo.X "CN=Alice,dc=example,dc=com"
                      "alicepw" Demo.alice Demo.conn ltac:(discriminate) eq_refl
                      eq_refl ltac:(repeat constructor) ltac:(repeat constructor))
               ltac:(apply list_elem_of_singleton; reflexivity)).
    reflexivity.
  - rewrite (proj2 (bind_with_stored_password Demo.X "dc=example,dc=com"
                      "alicepw" {[ "objectClass" := [Bytes "domain"] ]} Demo.conn
                      ltac:(discriminate) eq_refl eq_refl
                      ltac:(constructor) ltac:(constructor))
               ltac:(apply not_elem_of_nil)).
    reflexivity.
Defined.
